(** * CCGuide: the decision / suggestion pipeline of the stop hook

    A shallow embedding of [src/gemini_decision_engine.py],
    [src/gemini_suggestion_engine.py] and [src/stop_hook_handler.py], and of
    the commands of [cli/ccguide_cli.py] that change the configuration.

    Modelling conventions.
    - A Python [str] is a [string]: a sequence of bytes.  On ASCII text this
      is the sequence of code points Python sees; [lower], [upper], [strip]
      and [split] act on the ASCII range as Python's do there.
    - A Python [float] is an interface ([PyFloat]) with the operations the
      code applies to timestamps; the model and its properties are stated for
      every implementation of it, and run on whole seconds.
    - The configuration is a dict whose values have the types of the data
      model; a key may be absent.
    - The file system, the clock, the remote models, the log and standard
      output form an explicit [World], threaded through a state-and-exception
      monad: an exception leaves the effects made before it in place. *)

From Stdlib Require Import String Ascii List ZArith Bool Lia DecimalString.
Import ListNotations.
Local Open Scope string_scope.
Local Open Scope Z_scope.

(** ** Python string operations *)

Module PyStr.

Definition is_upper (c : ascii) : bool :=
  let n := nat_of_ascii c in (Nat.leb 65 n && Nat.leb n 90)%bool.

Definition is_lower (c : ascii) : bool :=
  let n := nat_of_ascii c in (Nat.leb 97 n && Nat.leb n 122)%bool.

Definition lower_char (c : ascii) : ascii :=
  if is_upper c then ascii_of_nat (nat_of_ascii c + 32) else c.

Definition upper_char (c : ascii) : ascii :=
  if is_lower c then ascii_of_nat (nat_of_ascii c - 32) else c.

Fixpoint map_chars (f : ascii -> ascii) (s : string) : string :=
  match s with
  | EmptyString => EmptyString
  | String c t => String (f c) (map_chars f t)
  end.

(** [s.lower()] and [s.upper()]. *)
Definition lower : string -> string := map_chars lower_char.

Definition upper : string -> string := map_chars upper_char.

(** The ASCII characters [str.isspace] accepts: tab, line feed, vertical tab,
    form feed, carriage return, the four separators 28..31 and the space. *)
Definition is_space (c : ascii) : bool :=
  let n := nat_of_ascii c in
  ((Nat.leb 9 n && Nat.leb n 13) || (Nat.leb 28 n && Nat.leb n 32))%bool.

Fixpoint lstrip (s : string) : string :=
  match s with
  | EmptyString => EmptyString
  | String c t => if is_space c then lstrip t else s
  end.

Fixpoint rstrip (s : string) : string :=
  match s with
  | EmptyString => EmptyString
  | String c t =>
      match rstrip t with
      | EmptyString => if is_space c then EmptyString else String c EmptyString
      | t' => String c t'
      end
  end.

(** [s.strip()]. *)
Definition strip (s : string) : string := rstrip (lstrip s).

(** [needle in hay]. *)
Fixpoint contains (needle hay : string) : bool :=
  (prefix needle hay ||
   match hay with
   | EmptyString => false
   | String _ t => contains needle t
   end)%bool.

(** [any(k in s for k in keywords)]. *)
Definition any_in (keywords : list string) (s : string) : bool :=
  existsb (fun k => contains k s) keywords.

(** [sum(1 for k in keywords if k in s)]. *)
Definition count_in (keywords : list string) (s : string) : Z :=
  Z.of_nat (List.length (filter (fun k => contains k s) keywords)).

Definition is_empty (s : string) : bool :=
  match s with EmptyString => true | _ => false end.

(** [s.split()]: the maximal runs of non-space characters, in order. *)
Fixpoint split_from (cur s : string) : list string :=
  match s with
  | EmptyString => if is_empty cur then [] else [cur]
  | String c t =>
      if is_space c
      then (if is_empty cur then split_from EmptyString t
            else cur :: split_from EmptyString t)
      else split_from (cur ++ String c EmptyString) t
  end.

Definition split (s : string) : list string := split_from EmptyString s.

(** [x in l] for a list of strings. *)
Definition mem (x : string) (l : list string) : bool :=
  existsb (String.eqb x) l.

(** [sep.join(l)]. *)
Definition join (sep : string) (l : list string) : string := String.concat sep l.

(** [len(s)]. *)
Definition len (s : string) : Z := Z.of_nat (String.length s).

(** [str(n)] for an [int] and [str(b)] for a [bool]. *)
Definition str_of_int (n : Z) : string := NilZero.string_of_int (Z.to_int n).

Definition str_of_bool (b : bool) : string := if b then "True" else "False".

(** The double-quote character, for the prompts. *)
Definition dq : string := String (ascii_of_nat 34) EmptyString.

(** [s * n]. *)
Fixpoint repeat_str (s : string) (n : nat) : string :=
  match n with
  | O => EmptyString
  | S k => s ++ repeat_str s k
  end.

End PyStr.

(** ** Context analysis for the decision (gemini_decision_engine.py) *)

Record Analysis := {
  a_length : Z;
  a_has_code : bool;
  a_has_errors : bool;
  a_has_testing : bool;
  a_has_git : bool;
  a_complexity_indicators : Z
}.

Definition code_keywords : list string :=
  ["def "; "function"; "class "; "import "; "const "; "var "; "let "].

Definition error_keywords : list string :=
  ["error"; "exception"; "failed"; "traceback"; "syntax error"].

Definition testing_keywords : list string :=
  ["test"; "pytest"; "unittest"; "jest"; "spec"].

Definition git_keywords : list string :=
  ["git "; "commit"; "branch"; "merge"; "pull request"].

Definition complexity_words : list string :=
  ["todo"; "fixme"; "hack"; "temp"].

Definition analyze_session_context (session_context : string) : Analysis :=
  {| a_length := PyStr.len session_context;
     a_has_code := PyStr.any_in code_keywords (PyStr.lower session_context);
     a_has_errors := PyStr.any_in error_keywords (PyStr.lower session_context);
     a_has_testing := PyStr.any_in testing_keywords (PyStr.lower session_context);
     a_has_git := PyStr.any_in git_keywords (PyStr.lower session_context);
     a_complexity_indicators :=
       Z.of_nat (List.length
         (filter (fun word => PyStr.mem (PyStr.lower word) complexity_words)
                 (PyStr.split session_context))) |}.

(** ** Deep analysis for the suggestions (gemini_suggestion_engine.py) *)

Record Components := {
  c_languages : list string;
  c_frameworks : list string;
  c_tools : list string;
  c_patterns : list string;
  c_issues : list string;
  c_session_type : string
}.

(** The loop shared by the detectors: the keys of the table, in order, one of
    whose indicators occurs in the lowered context. *)
Definition detect (table : list (string * list string)) (context : string)
  : list string :=
  map fst (filter (fun entry => PyStr.any_in (snd entry) (PyStr.lower context)) table).

Definition language_indicators : list (string * list string) :=
  [ ("python", [".py"; "def "; "import "; "python"; "pip"; "pytest"]);
    ("javascript", [".js"; ".ts"; ".jsx"; ".tsx"; "function"; "const "; "npm"; "node"]);
    ("java", [".java"; "public class"; "import java"; "maven"; "gradle"]);
    ("c++", [".cpp"; ".h"; "#include"; "std::"; "cmake"]);
    ("rust", [".rs"; "fn "; "use "; "cargo"; "impl "]);
    ("go", [".go"; "func "; "package "; "import "]);
    ("html", [".html"; "<html>"; "<div>"; "<script>"]);
    ("css", [".css"; "style"; "display:"; "margin:"]);
    ("sql", [".sql"; "SELECT"; "FROM"; "WHERE"; "INSERT"]);
    ("shell", [".sh"; "#!/bin/bash"; "chmod"; "mkdir"]) ].

Definition framework_indicators : list (string * list string) :=
  [ ("react", ["react"; "jsx"; "usestate"; "useeffect"; "component"]);
    ("vue", ["vue"; "@click"; "v-model"; "mounted()"]);
    ("angular", ["angular"; "@component"; "@injectable"; "ngmodel"]);
    ("flask", ["flask"; "app.route"; "@app.route"; "render_template"]);
    ("django", ["django"; "models.py"; "views.py"; "urls.py"]);
    ("express", ["express"; "app.get"; "app.post"; "middleware"]);
    ("spring", ["spring"; "@controller"; "@service"; "@autowired"]);
    ("tensorflow", ["tensorflow"; "keras"; "model.fit"; "neural"]);
    ("pytorch", ["pytorch"; "torch"; "nn.module"; "tensor"]);
    ("pandas", ["pandas"; "dataframe"; "pd.read"; "groupby"]);
    ("numpy", ["numpy"; "np.array"; "ndarray"; "matrix"]) ].

Definition tool_indicators : list (string * list string) :=
  [ ("git", ["git add"; "git commit"; "git push"; "git pull"]);
    ("docker", ["docker"; "dockerfile"; "docker-compose"]);
    ("kubernetes", ["kubectl"; "k8s"; "deployment.yaml"]);
    ("aws", ["aws"; "ec2"; "s3"; "lambda"; "cloudformation"]);
    ("ci/cd", ["github actions"; "jenkins"; "ci.yml"; ".github/workflows"]);
    ("testing", ["test"; "pytest"; "jest"; "unittest"; "mocha"]);
    ("linting", ["eslint"; "pylint"; "flake8"; "prettier"]) ].

Definition pattern_indicators : list (string * list string) :=
  [ ("api_development", ["api"; "endpoint"; "rest"; "json"; "request"; "response"]);
    ("database_work", ["database"; "sql"; "query"; "table"; "migration"]);
    ("frontend_work", ["frontend"; "ui"; "component"; "styling"; "responsive"]);
    ("backend_work", ["backend"; "server"; "authentication"; "middleware"]);
    ("data_analysis", ["data"; "analysis"; "visualization"; "statistics"]);
    ("machine_learning", ["ml"; "model"; "training"; "prediction"; "algorithm"]);
    ("devops", ["deployment"; "infrastructure"; "monitoring"; "scaling"]);
    ("security", ["authentication"; "authorization"; "encryption"; "security"]) ].

Definition issue_patterns : list (string * list string) :=
  [ ("hardcoded_credentials", ["password ="; "api_key ="; "secret ="; "token ="]);
    ("missing_error_handling", ["except:"; "catch"; "try:"]);
    ("code_duplication", ["todo"; "fixme"; "hack"; "temporary"]);
    ("performance_concerns", ["loop"; "nested"; "n+1"; "timeout"]);
    ("security_concerns", ["eval("; "exec("; "shell=true"; "sql injection"]);
    ("testing_gaps", ["# no tests"; "untested"; "manual testing"]) ].

Definition _detect_languages : string -> list string := detect language_indicators.

Definition _detect_frameworks : string -> list string := detect framework_indicators.

Definition _detect_tools : string -> list string := detect tool_indicators.

Definition _detect_potential_issues : string -> list string := detect issue_patterns.

(** A pattern is reported when at least two of its indicators occur. *)
Definition _detect_patterns (context : string) : list string :=
  map fst (filter (fun entry => 2 <=? PyStr.count_in (snd entry) (PyStr.lower context))
                  pattern_indicators).

(** The if / elif chain of [_classify_session_type], as the ordered list of
    its tests: the keywords of each branch and the label it returns. *)
Definition session_type_rules : list (list string * string) :=
  [ (["new project"; "initial"; "setup"; "scaffold"], "project_setup");
    (["bug"; "fix"; "error"; "debug"], "bug_fixing");
    (["feature"; "implement"; "add"; "create"], "feature_development");
    (["refactor"; "cleanup"; "optimize"; "improve"], "refactoring");
    (["test"; "testing"; "spec"; "coverage"], "testing");
    (["deploy"; "release"; "production"; "ci/cd"], "deployment") ].

Definition _classify_session_type (context : string) : string :=
  let context_lower := PyStr.lower context in
  if PyStr.any_in ["new project"; "initial"; "setup"; "scaffold"] context_lower
  then "project_setup"
  else if PyStr.any_in ["bug"; "fix"; "error"; "debug"] context_lower
  then "bug_fixing"
  else if PyStr.any_in ["feature"; "implement"; "add"; "create"] context_lower
  then "feature_development"
  else if PyStr.any_in ["refactor"; "cleanup"; "optimize"; "improve"] context_lower
  then "refactoring"
  else if PyStr.any_in ["test"; "testing"; "spec"; "coverage"] context_lower
  then "testing"
  else if PyStr.any_in ["deploy"; "release"; "production"; "ci/cd"] context_lower
  then "deployment"
  else "general_development".

Definition analyze_session_components (session_context : string) : Components :=
  {| c_languages := _detect_languages session_context;
     c_frameworks := _detect_frameworks session_context;
     c_tools := _detect_tools session_context;
     c_patterns := _detect_patterns session_context;
     c_issues := _detect_potential_issues session_context;
     c_session_type := _classify_session_type session_context |}.

(** ** Exceptions, configuration and results *)

(** A raised exception, by its message ([str(e)]).  Only subclasses of
    [Exception] are modelled: every handler of the code is [except Exception]. *)
Definition exn := string.

Inductive outcome (A : Type) : Type :=
| Returned (a : A)
| Raised (e : exn).

Arguments Returned {A} a.

Arguments Raised {A} e.

(** The configuration dict, with the value types the data model gives its
    keys; a key may be absent, and the engines read it with [.get]. *)
Record Config := {
  gemini_api_key : option string;
  enable_suggestions : option bool;
  min_session_length : option Z;
  suggestion_cooldown : option Z
}.

Definition get {A : Type} (v : option A) (default : A) : A :=
  match v with Some x => x | None => default end.

(** The dict the hook prints: [block] and the optional keys. *)
Record hook_result := {
  block : bool;
  context : option string;
  reason : option string;
  error : option string
}.

Definition result_plain : hook_result :=
  {| block := false; context := None; reason := None; error := None |}.

Definition result_error (msg : string) : hook_result :=
  {| block := false; context := None; reason := None; error := Some msg |}.

Definition result_suggestion (text : string) : hook_result :=
  {| block := false; context := Some text;
     reason := Some "CCGuide suggestions available"; error := None |}.

(** The cooldown file [~/.ccguide/last_suggestion.txt]. *)
Inductive file_state :=
| Absent
| Unreadable (e : exn)      (* it exists and reading it raises [e] *)
| Content (text : string).

Inductive log_level := INFO | WARNING | ERROR.

(** Python's [float], as far as the code uses it: the type, [float(s)]
    (which may raise), [str(x)], [x - y] and the comparison [x < n] with an
    [int]. *)
Class PyFloat := {
  pyfloat : Type;
  py_float : string -> outcome pyfloat;
  py_str : pyfloat -> string;
  fsub : pyfloat -> pyfloat -> pyfloat;
  flt_int : pyfloat -> Z -> bool
}.

Section Model.

Context {FL : PyFloat}.

(** A log record: the message, by the values interpolated into it. *)
Inductive log_event :=
| SuggestionsDisabled
| SessionTooShort
| InCooldown (time_since_last : pyfloat)
| CooldownCheckFailed (e : exn)
| CooldownUpdateFailed (e : exn)
| SessionAnalysis (analysis : Analysis)
| GeminiDecision (session_id decision : string) (should_suggest : bool)
| DecisionEngineFailed (e : exn)
| UsingFallback
| FallbackScore (score : Z) (should_suggest : bool)
| GeneratedSuggestions (chars : Z) (session_type : string)
| SuggestionFailed (e : exn)
| ProcessingStopHook (session_id : string)
| ReadTranscript (chars : Z)
| ReadTranscriptFailed (e : exn)
| NoSuggestionsNeeded
| GeminiInitialized
| HookHandlerFailed (e : exn).

Record World := {
  (** the successive readings of [time.time()] and how many were taken *)
  clock : nat -> pyfloat;
  ticks : nat;
  (** the cooldown file, and whether creating its directory or writing it fails *)
  cooldown_file : file_state;
  mkdir_error : option exn;
  write_error : option exn;
  (** [open(path).read()] for the transcript files *)
  files : string -> outcome string;
  (** [generate_content(prompt).text] of a model, given how many remote calls
      were made before, and the calls made so far (model, prompt) *)
  remote : nat -> string -> string -> outcome string;
  remote_calls : list (string * string);
  (** what [setup_logging] raises, if it does, and what [load_config] returns *)
  startup_error : option exn;
  loaded_config : Config;
  log : list (log_level * log_event);
  stdout : list hook_result
}.

Definition set_ticks (n : nat) (w : World) : World :=
  {| clock := clock w; ticks := n; cooldown_file := cooldown_file w;
     mkdir_error := mkdir_error w; write_error := write_error w;
     files := files w; remote := remote w; remote_calls := remote_calls w;
     startup_error := startup_error w; loaded_config := loaded_config w;
     log := log w; stdout := stdout w |}.

Definition set_cooldown_file (f : file_state) (w : World) : World :=
  {| clock := clock w; ticks := ticks w; cooldown_file := f;
     mkdir_error := mkdir_error w; write_error := write_error w;
     files := files w; remote := remote w; remote_calls := remote_calls w;
     startup_error := startup_error w; loaded_config := loaded_config w;
     log := log w; stdout := stdout w |}.

Definition set_remote_calls (l : list (string * string)) (w : World) : World :=
  {| clock := clock w; ticks := ticks w; cooldown_file := cooldown_file w;
     mkdir_error := mkdir_error w; write_error := write_error w;
     files := files w; remote := remote w; remote_calls := l;
     startup_error := startup_error w; loaded_config := loaded_config w;
     log := log w; stdout := stdout w |}.

Definition set_log (l : list (log_level * log_event)) (w : World) : World :=
  {| clock := clock w; ticks := ticks w; cooldown_file := cooldown_file w;
     mkdir_error := mkdir_error w; write_error := write_error w;
     files := files w; remote := remote w; remote_calls := remote_calls w;
     startup_error := startup_error w; loaded_config := loaded_config w;
     log := l; stdout := stdout w |}.

Definition set_stdout (l : list hook_result) (w : World) : World :=
  {| clock := clock w; ticks := ticks w; cooldown_file := cooldown_file w;
     mkdir_error := mkdir_error w; write_error := write_error w;
     files := files w; remote := remote w; remote_calls := remote_calls w;
     startup_error := startup_error w; loaded_config := loaded_config w;
     log := log w; stdout := l |}.

(** ** The monad: state of the world, and exceptions *)

Definition M (A : Type) : Type := World -> outcome A * World.

Definition ret {A : Type} (a : A) : M A := fun w => (Returned a, w).

Definition raise {A : Type} (e : exn) : M A := fun w => (Raised e, w).

Definition bind {A B : Type} (m : M A) (k : A -> M B) : M B :=
  fun w =>
    match m w with
    | (Returned a, w') => k a w'
    | (Raised e, w') => (Raised e, w')
    end.

(** [try: m  except Exception as e: handler e]. *)
Definition try_except {A : Type} (m : M A) (handler : exn -> M A) : M A :=
  fun w =>
    match m w with
    | (Returned a, w') => (Returned a, w')
    | (Raised e, w') => handler e w'
    end.

Notation "x <- m ;; k" := (bind m (fun x => k))
  (at level 61, m at next level, right associativity).

Notation "m ;; k" := (bind m (fun _ => k))
  (at level 61, right associativity).

Definition of_outcome {A : Type} (o : outcome A) : M A := fun w => (o, w).

(** *** Primitive effects *)

Definition logger (level : log_level) (ev : log_event) : M unit :=
  fun w => (Returned tt, set_log (log w ++ [(level, ev)]) w).

Definition time_time : M pyfloat :=
  fun w => (Returned (clock w (ticks w)), set_ticks (S (ticks w)) w).

Definition cooldown_exists : M bool :=
  fun w => (Returned (match cooldown_file w with Absent => false | _ => true end), w).

Definition cooldown_read_text : M string :=
  fun w =>
    match cooldown_file w with
    | Content text => (Returned text, w)
    | Unreadable e => (Raised e, w)
    | Absent => (Raised "No such file or directory", w)
    end.

Definition cooldown_mkdir_parent : M unit :=
  fun w =>
    match mkdir_error w with
    | Some e => (Raised e, w)
    | None => (Returned tt, w)
    end.

Definition cooldown_write_text (text : string) : M unit :=
  fun w =>
    match write_error w with
    | Some e => (Raised e, w)
    | None => (Returned tt, set_cooldown_file (Content text) w)
    end.

Definition generate_content (model prompt : string) : M string :=
  fun w =>
    (remote w (List.length (remote_calls w)) model prompt,
     set_remote_calls (remote_calls w ++ [(model, prompt)]) w).

Definition open_read (path : string) : M string :=
  fun w => (files w path, w).

Definition print_json (r : hook_result) : M unit :=
  fun w => (Returned tt, set_stdout (stdout w ++ [r]) w).

(** ** The decision engine (gemini_decision_engine.py) *)

(** [cooldown_minutes], computed before the [try] and never used, is left
    out: on an integer threshold the division cannot raise. *)
Definition is_in_cooldown (config : Config) (session_id : string) : M bool :=
  try_except
    (present <- cooldown_exists ;;
     if present then
       text <- cooldown_read_text ;;
       last_suggestion_time <- of_outcome (py_float (PyStr.strip text)) ;;
       now <- time_time ;;
       let time_since_last := fsub now last_suggestion_time in
       if flt_int time_since_last (get (suggestion_cooldown config) 300) then
         logger INFO (InCooldown time_since_last) ;;
         ret true
       else ret false
     else ret false)
    (fun e => logger WARNING (CooldownCheckFailed e) ;; ret false).

Definition update_cooldown : M unit :=
  try_except
    (cooldown_mkdir_parent ;;
     now <- time_time ;;
     cooldown_write_text (py_str now))
    (fun e => logger ERROR (CooldownUpdateFailed e)).

Definition decision_prompt (analysis : Analysis) (full_context : string) : string :=
  "
You are a smart filter for Claude Code AI suggestions. Analyze the session and decide if suggestions would be valuable.

SESSION METRICS:
- Length: " ++ PyStr.str_of_int (a_length analysis) ++ " characters
- Has code: " ++ PyStr.str_of_bool (a_has_code analysis) ++ "
- Has errors: " ++ PyStr.str_of_bool (a_has_errors analysis) ++ "
- Has testing: " ++ PyStr.str_of_bool (a_has_testing analysis) ++ "
- Has git activity: " ++ PyStr.str_of_bool (a_has_git analysis) ++ "
- Complexity indicators: " ++ PyStr.str_of_int (a_complexity_indicators analysis) ++ "

FULL SESSION CONTEXT:
" ++ full_context ++ "

DECISION CRITERIA:
✅ Suggest if:
- Significant coding work was done
- Code quality issues are apparent
- Security concerns exist
- Testing gaps are visible
- Documentation is missing
- Architecture could be improved
- Best practices weren't followed

❌ Don't suggest if:
- Task is trivial (simple edits, file reads)
- User is just exploring/learning
- Session is primarily conversational
- Work is already high-quality
- Previous suggestions were ignored

Respond with only " ++ PyStr.dq ++ "YES" ++ PyStr.dq ++ " or " ++ PyStr.dq ++ "NO" ++ PyStr.dq ++ ".
".

Definition _fallback_decision (analysis : Analysis) : M bool :=
  logger INFO UsingFallback ;;
  let score := 0 in
  let score := if 1000 <? a_length analysis then score + 1 else score in
  let score := if a_has_code analysis then score + 2 else score in
  let score := if a_has_errors analysis then score + 1 else score in
  let score := if 0 <? a_complexity_indicators analysis then score + 1 else score in
  let should_suggest := 3 <=? score in
  (if should_suggest then update_cooldown else ret tt) ;;
  logger INFO (FallbackScore score should_suggest) ;;
  ret should_suggest.

Definition should_suggest (config : Config) (session_id session_context : string)
  : M bool :=
  if negb (get (enable_suggestions config) true) then
    logger INFO SuggestionsDisabled ;;
    ret false
  else if PyStr.len session_context <? get (min_session_length config) 100 then
    logger INFO SessionTooShort ;;
    ret false
  else
    cooling <- is_in_cooldown config session_id ;;
    if cooling then ret false
    else
      let analysis := analyze_session_context session_context in
      logger INFO (SessionAnalysis analysis) ;;
      let full_context := session_context in
      let prompt := decision_prompt analysis full_context in
      try_except
        (text <- generate_content "gemini-2.5-flash-lite" prompt ;;
         let decision := PyStr.upper (PyStr.strip text) in
         let should_suggest := String.eqb decision "YES" in
         logger INFO (GeminiDecision session_id decision should_suggest) ;;
         (if should_suggest then update_cooldown else ret tt) ;;
         ret should_suggest)
        (fun e =>
           logger ERROR (DecisionEngineFailed e) ;;
           _fallback_decision analysis).

(** ** The suggestion engine (gemini_suggestion_engine.py) *)

(** [', '.join(l) if l else 'None detected']. *)
Definition listed (l : list string) : string :=
  match l with
  | [] => "None detected"
  | _ => PyStr.join ", " l
  end.

Definition _build_suggestion_prompt (context : string) (analysis : Components)
  : string :=
  "
You are CCGuide, an expert AI assistant providing intelligent coding guidance for Claude Code sessions.

SESSION ANALYSIS:
- Type: " ++ c_session_type analysis ++ "
- Languages: " ++ listed (c_languages analysis) ++ "
- Frameworks: " ++ listed (c_frameworks analysis) ++ "
- Tools: " ++ listed (c_tools analysis) ++ "
- Patterns: " ++ listed (c_patterns analysis) ++ "
- Potential Issues: " ++ listed (c_issues analysis) ++ "

SESSION TRANSCRIPT:
" ++ context ++ "

GUIDANCE REQUEST:
As CCGuide, provide intelligent, actionable suggestions tailored to this specific session. Focus on:

1. **Code Quality & Best Practices** - Specific improvements for the languages/frameworks used
2. **Security Considerations** - Address any security concerns relevant to the work done
3. **Performance Optimization** - Suggest performance improvements where applicable  
4. **Testing Strategy** - Recommend testing approaches for the current work
5. **Documentation & Maintainability** - Suggest documentation improvements
6. **Architecture & Design** - Propose better patterns or architectural improvements
7. **Tooling & Workflow** - Recommend tools or processes that could help

FORMATTING:
Format as markdown with clear sections. Make suggestions:
- Specific to the actual code and context shown
- Actionable with clear next steps
- Prioritized by impact
- Relevant to the session type and detected technologies

Begin with: " ++ PyStr.dq ++ "## 🧭 CCGuide Suggestions" ++ PyStr.dq ++ "
".

(** The footer.  The source writes its line breaks as an escaped backslash
    followed by [n], so the text holds those two characters. *)
Definition session_footer (analysis : Components) : string :=
  let session_info := "\n\n---\n*Session Analysis: " ++ c_session_type analysis ++ "*" in
  let session_info :=
    match c_languages analysis with
    | [] => session_info
    | _ => session_info ++ " *| Languages: " ++ PyStr.join ", " (c_languages analysis) ++ "*"
    end in
  let session_info :=
    match c_frameworks analysis with
    | [] => session_info
    | _ => session_info ++ " *| Frameworks: " ++ PyStr.join ", " (c_frameworks analysis) ++ "*"
    end in
  session_info.

Definition _format_suggestions (suggestions : string) (analysis : Components)
  : string :=
  suggestions ++ session_footer analysis.

Definition fallback_header : string := "## 🧭 CCGuide Suggestions\n\n".

Definition fallback_bug_fixing : string :=
  "**Bug Fixing Session Detected**\n"
  ++ "- Consider adding tests to prevent regression\n"
  ++ "- Document the root cause in comments\n"
  ++ "- Review error handling around the fix\n\n".

Definition fallback_feature_development : string :=
  "**Feature Development Session Detected**\n"
  ++ "- Write tests before or alongside implementation\n"
  ++ "- Consider breaking down large features into smaller components\n"
  ++ "- Document new functionality\n\n".

Definition fallback_general : string :=
  "**Development Session Detected**\n"
  ++ "- Consider adding or updating tests\n"
  ++ "- Review code for security best practices\n"
  ++ "- Ensure proper error handling\n\n".

Definition fallback_disclaimer : string :=
  "\n*CCGuide AI suggestions temporarily unavailable - using fallback guidance*".

Definition _generate_fallback_suggestions (analysis : Components) : string :=
  let fallback := fallback_header in
  let fallback :=
    if String.eqb (c_session_type analysis) "bug_fixing"
    then fallback ++ fallback_bug_fixing
    else if String.eqb (c_session_type analysis) "feature_development"
    then fallback ++ fallback_feature_development
    else fallback ++ fallback_general in
  let fallback :=
    match c_languages analysis with
    | [] => fallback
    | _ => fallback ++ "**Technologies Used:** "
             ++ PyStr.join ", " (c_languages analysis) ++ "\n"
    end in
  fallback ++ fallback_disclaimer.

Definition generate_contextual_suggestions (session_context : string) : M string :=
  let analysis := analyze_session_components session_context in
  let context_for_ai := session_context in
  let suggestion_prompt := _build_suggestion_prompt context_for_ai analysis in
  try_except
    (text <- generate_content "gemini-2.5-flash" suggestion_prompt ;;
     let suggestions := PyStr.strip text in
     logger INFO (GeneratedSuggestions (PyStr.len suggestions) (c_session_type analysis)) ;;
     ret (_format_suggestions suggestions analysis))
    (fun e =>
       logger ERROR (SuggestionFailed e) ;;
       ret (_generate_fallback_suggestions analysis)).

(** ** The orchestrator (stop_hook_handler.py) *)

(** [CCGuide()]: [setup_logging], [load_config] and [setup_gemini].  Reading
    and merging the configuration file is outside the model: the world gives
    the dict [load_config] returns.  The object built is its configuration. *)
Definition setup_logging : M unit :=
  fun w =>
    match startup_error w with
    | Some e => (Raised e, w)
    | None => (Returned tt, w)
    end.

Definition load_config : M Config :=
  fun w => (Returned (loaded_config w), w).

Definition setup_gemini (config : Config) : M unit :=
  if PyStr.is_empty (get (gemini_api_key config) EmptyString)
  then raise "GEMINI_API_KEY not found in config or environment"
  else logger INFO GeminiInitialized.

Definition CCGuide_init : M Config :=
  setup_logging ;;
  config <- load_config ;;
  setup_gemini config ;;
  ret config.

Definition read_transcript (transcript_path : string) : M string :=
  try_except
    (content <- open_read transcript_path ;;
     logger INFO (ReadTranscript (PyStr.len content)) ;;
     ret content)
    (fun e =>
       logger ERROR (ReadTranscriptFailed e) ;;
       ret EmptyString).

Definition process_stop_hook (config : Config) (session_id transcript_path : string)
  : M hook_result :=
  logger INFO (ProcessingStopHook session_id) ;;
  session_context <- read_transcript transcript_path ;;
  if PyStr.is_empty session_context then ret result_plain
  else
    wanted <- should_suggest config session_id session_context ;;
    if negb wanted then
      logger INFO NoSuggestionsNeeded ;;
      ret result_plain
    else
      suggestion <- generate_contextual_suggestions session_context ;;
      if negb (PyStr.is_empty suggestion)
      then ret (result_suggestion suggestion)
      else ret result_plain.

(** [os.getenv(name, default)]. *)
Definition getenv (environ : string -> option string) (name default : string)
  : string :=
  get (environ name) default.

(** The two arguments of the hook: the environment variable if it is set,
    else the command-line argument if there is one, else the default. *)
Definition session_id_of (environ : string -> option string) (argv : list string)
  : string :=
  getenv environ "SESSION_ID"
         (if 1 <? Z.of_nat (List.length argv) then nth 1 argv EmptyString
          else "unknown").

Definition transcript_path_of (environ : string -> option string) (argv : list string)
  : string :=
  getenv environ "TRANSCRIPT_PATH"
         (if 2 <? Z.of_nat (List.length argv) then nth 2 argv EmptyString
          else EmptyString).

(** The body of the [try] of [main()], given the process environment and
    [sys.argv], and [main()] itself. *)
Definition main_body (environ : string -> option string) (argv : list string)
  : M unit :=
  let session_id := session_id_of environ argv in
  let transcript_path := transcript_path_of environ argv in
  if PyStr.is_empty transcript_path then
    print_json (result_error "No transcript path provided")
  else
    assistant <- CCGuide_init ;;
    result <- process_stop_hook assistant session_id transcript_path ;;
    print_json result.

Definition main (environ : string -> option string) (argv : list string) : M unit :=
  try_except
    (main_body environ argv)
    (fun e =>
       print_json (result_error ("Hook handler failed: " ++ e)) ;;
       logger ERROR (HookHandlerFailed e)).

(** ** Notions used in the statements *)

(** What a call leaves of the world it started in: the oracles and standard
    output are kept, and the clock only advances. *)
Definition frame (w w' : World) : Prop :=
  stdout w' = stdout w
  /\ mkdir_error w' = mkdir_error w
  /\ write_error w' = write_error w
  /\ remote w' = remote w
  /\ clock w' = clock w
  /\ (ticks w <= ticks w')%nat.

(** The cooldown file holds the last reading taken of the clock. *)
Definition recorded_now (w' : World) : Prop :=
  (0 < ticks w')%nat
  /\ cooldown_file w' = Content (py_str (clock w' (pred (ticks w')))).

(** The verdict of the cooldown check, read off the world. *)
Definition cooldown_verdict (config : Config) (w : World) : bool :=
  match cooldown_file w with
  | Content text =>
      match py_float (PyStr.strip text) with
      | Returned last =>
          flt_int (fsub (clock w (ticks w)) last) (get (suggestion_cooldown config) 300)
      | Raised _ => false
      end
  | _ => false
  end.

(** The world with its log forgotten. *)
Definition erase_log (w : World) : World := set_log [] w.

(** [update_cooldown] was the last effect on the world: the world is the
    one a call of [update_cooldown] left, but for log lines written after. *)
Definition cooldown_updated (w' : World) : Prop :=
  exists wa tail,
    w' = set_log (log (snd (update_cooldown wa)) ++ tail) (snd (update_cooldown wa)).

End Model.

(** The notations of the monad again, for the statements that follow the
    section. *)
Notation "x <- m ;; k" := (bind m (fun x => k))
  (at level 61, m at next level, right associativity).
Notation "m ;; k" := (bind m (fun _ => k))
  (at level 61, right associativity).

(** The seven categories of the data model. *)
Definition session_types : list string :=
  [ "project_setup"; "bug_fixing"; "feature_development"; "refactoring";
    "testing"; "deployment"; "general_development" ].

(** First match in an ordered list of keyword tests, as the design states it. *)
Fixpoint first_match (rules : list (list string * string)) (text default : string)
  : string :=
  match rules with
  | [] => default
  | (keywords, label) :: rest =>
      if PyStr.any_in keywords text then label else first_match rest text default
  end.

(** The score of the fallback heuristic, as the design states it. *)
Definition fallback_score (length : Z) (has_code has_errors : bool)
  (complexity_indicators : Z) : Z :=
  (if 1000 <? length then 1 else 0)
  + (if has_code then 2 else 0)
  + (if has_errors then 1 else 0)
  + (if 0 <? complexity_indicators then 1 else 0).

Definition analysis_score (analysis : Analysis) : Z :=
  fallback_score (a_length analysis) (a_has_code analysis) (a_has_errors analysis)
                 (a_complexity_indicators analysis).


Definition suggestion_model : string := "gemini-2.5-flash".

(** The template of the fallback text, chosen by the session type, and the
    clause naming the detected languages. *)
Definition fallback_template (session_type : string) : string :=
  if String.eqb session_type "bug_fixing" then fallback_bug_fixing
  else if String.eqb session_type "feature_development" then fallback_feature_development
  else fallback_general.

Definition technologies_clause (languages : list string) : string :=
  match languages with
  | [] => EmptyString
  | _ => "**Technologies Used:** " ++ PyStr.join ", " languages ++ "\n"
  end.

(** * Further code and the notions of its properties *)

(** ** Character classes *)

(** Every character of the string satisfies the test. *)
Fixpoint all_chars (p : ascii -> bool) (s : string) : bool :=
  match s with
  | EmptyString => true
  | String c t => (p c && all_chars p t)%bool
  end.

(** A string of white space only ([s.isspace()] or [s] empty). *)
Definition blank (s : string) : bool := all_chars PyStr.is_space s.


(** ** The remote calls of the two stages *)

(** The call the decision stage makes, and the call the suggestion stage
    makes, for a transcript. *)
Definition decision_call (session_context : string) : string * string :=
  ("gemini-2.5-flash-lite",
   decision_prompt (analyze_session_context session_context) session_context).

Definition suggestion_call (session_context : string) : string * string :=
  ("gemini-2.5-flash",
   _build_suggestion_prompt session_context
     (analyze_session_components session_context)).

(** ** Python slices *)

Module PySlice.

Fixpoint take (n : nat) (s : string) : string :=
  match n, s with
  | O, _ => EmptyString
  | S _, EmptyString => EmptyString
  | S k, String c t => String c (take k t)
  end.

Fixpoint drop (n : nat) (s : string) : string :=
  match n, s with
  | O, _ => s
  | S _, EmptyString => EmptyString
  | S k, String _ t => drop k t
  end.

(** The position a slice bound [i] stands for in a sequence of length [n]:
    a negative bound counts from the end, and the result is clamped. *)
Definition position (i n : Z) : nat :=
  Z.to_nat (if i <? 0 then Z.max (n + i) 0 else Z.min i n).

(** [s[:stop]] and [s[start:]]. *)
Definition upto (stop : Z) (s : string) : string :=
  take (position stop (PyStr.len s)) s.

Definition from (start : Z) (s : string) : string :=
  drop (position start (PyStr.len s)) s.

End PySlice.

(** [_prepare_context_for_ai(context, max_chars)] of the suggestion engine
    (its default for [max_chars] is 15000).  The separator is written in the
    source with escaped backslashes. *)
Definition truncation_marker : string :=
  "\n\n... [middle content truncated] ...\n\n".

Definition _prepare_context_for_ai (context : string) (max_chars : Z) : string :=
  if PyStr.len context <=? max_chars then context
  else
    let beginning := PySlice.upto 2000 context in
    let recent := PySlice.from (- (max_chars - 2000)) context in
    beginning ++ truncation_marker ++ recent.

(** ** The configuration the hook loads (stop_hook_handler.py, load_config) *)

(** [default_config] of [load_config], on the four keys of [Config]; the API
    key is the environment variable GEMINI_API_KEY. *)
Definition hook_defaults (env_api_key : option string) : Config :=
  {| gemini_api_key := env_api_key;
     enable_suggestions := Some true;
     min_session_length := Some 100;
     suggestion_cooldown := Some 300 |}.

Definition or_else {A : Type} (changed base : option A) : option A :=
  match changed with Some v => Some v | None => base end.

(** [base.update(changes)]. *)
Definition dict_update (base changes : Config) : Config :=
  {| gemini_api_key := or_else (gemini_api_key changes) (gemini_api_key base);
     enable_suggestions := or_else (enable_suggestions changes) (enable_suggestions base);
     min_session_length := or_else (min_session_length changes) (min_session_length base);
     suggestion_cooldown :=
       or_else (suggestion_cooldown changes) (suggestion_cooldown base) |}.

(** The dict [load_config] returns: the defaults, updated with the dict of
    the configuration file when that file exists and parses ([Some]); its
    log lines are not part of this value.  As in [Config], the file's dict is
    read on the four keys the engines use, each absent or holding a value of
    its type. *)
Definition load_config_value (env_api_key : option string) (file : option Config)
  : Config :=
  match file with
  | Some user_config => dict_update (hook_defaults env_api_key) user_config
  | None => hook_defaults env_api_key
  end.

(** ** The command line (cli/ccguide_cli.py) *)

Module CLI.

(** The configuration file: absent, not parsable as JSON, or holding a dict. *)
Inductive config_file :=
| Missing
| Corrupt (e : exn)
| Holds (config : Config).

(** How [save_config] fails: before the file is opened for writing (creating
    the directory, or the [open] itself), which leaves the file as it was; or
    after [open] has truncated it, and then what the file holds afterwards,
    usually a text cut short that does not parse, is the world's. *)
Inductive save_failure :=
| BeforeOpen (e : exn)
| AfterOpen (e : exn) (leftover : config_file).

Record State := {
  file : config_file;
  save_error : option save_failure;  (* how the next write fails, if it does *)
  printed : list string              (* the lines printed so far *)
}.

(** A command returns, or leaves through [sys.exit]. *)
Inductive result (A : Type) : Type :=
| Done (a : A)
| Exit (code : Z).
Arguments Done {A} a.
Arguments Exit {A} code.

Definition C (A : Type) : Type := State -> result A * State.

Definition ret {A : Type} (a : A) : C A := fun st => (Done a, st).

Definition bind {A B : Type} (m : C A) (k : A -> C B) : C B :=
  fun st =>
    match m st with
    | (Done a, st') => k a st'
    | (Exit code, st') => (Exit code, st')
    end.

Definition sys_exit {A : Type} (code : Z) : C A := fun st => (Exit code, st).

Definition print (line : string) : C unit :=
  fun st =>
    (Done tt,
     {| file := file st; save_error := save_error st;
        printed := printed st ++ [line] |}).

Definition set_enable (b : bool) (config : Config) : Config :=
  {| gemini_api_key := gemini_api_key config;
     enable_suggestions := Some b;
     min_session_length := min_session_length config;
     suggestion_cooldown := suggestion_cooldown config |}.

Definition set_api_key (key : string) (config : Config) : Config :=
  {| gemini_api_key := Some key;
     enable_suggestions := enable_suggestions config;
     min_session_length := min_session_length config;
     suggestion_cooldown := suggestion_cooldown config |}.

Definition set_cooldown (seconds : Z) (config : Config) : Config :=
  {| gemini_api_key := gemini_api_key config;
     enable_suggestions := enable_suggestions config;
     min_session_length := min_session_length config;
     suggestion_cooldown := Some seconds |}.

Definition set_min_length (chars : Z) (config : Config) : Config :=
  {| gemini_api_key := gemini_api_key config;
     enable_suggestions := enable_suggestions config;
     min_session_length := Some chars;
     suggestion_cooldown := suggestion_cooldown config |}.

Section Commands.

(** [str(self.config_file)]. *)
Variable config_path : string.

Local Notation "'let*' x := m 'in' k" := (bind m (fun x => k))
  (at level 10, x pattern, m at level 100, k at level 200).
Local Notation "m >> k" := (bind m (fun _ => k))
  (at level 61, right associativity).

Definition load_config : C Config :=
  fun st =>
    match file st with
    | Missing =>
        (print ("❌ Config file not found: " ++ config_path) >>
         print "   Run 'python3 setup.py' first to initialize CCGuide" >>
         sys_exit 1) st
    | Corrupt e =>
        (print ("❌ Failed to load config: " ++ e) >>
         sys_exit 1) st
    | Holds config => (Done config, st)
    end.

Definition save_config (config : Config) : C unit :=
  fun st =>
    match save_error st with
    | Some (BeforeOpen e) =>
        (print ("❌ Failed to save config: " ++ e) >>
         sys_exit 1) st
    | Some (AfterOpen e leftover) =>
        (print ("❌ Failed to save config: " ++ e) >>
         sys_exit 1)
          {| file := leftover; save_error := save_error st;
             printed := printed st |}
    | None =>
        (Done tt,
         {| file := Holds config; save_error := save_error st;
            printed := printed st |})
    end.

Definition api_key_blank (config : Config) : bool :=
  PyStr.is_empty (PyStr.strip (get (gemini_api_key config) EmptyString)).

Definition enable : C unit :=
  let* config := load_config in
  if get (enable_suggestions config) false then
    print "✅ CCGuide is already enabled"
  else
    let config := set_enable true config in
    save_config config >>
    print "✅ CCGuide enabled successfully!" >>
    print "   Suggestions will now be provided after Claude Code sessions" >>
    if api_key_blank config then
      print "⚠️  Warning: Gemini API key not configured" >>
      print "   Set your API key with: ccguide config --api-key YOUR_KEY"
    else ret tt.

Definition disable : C unit :=
  let* config := load_config in
  if negb (get (enable_suggestions config) true) then
    print "✅ CCGuide is already disabled"
  else
    let config := set_enable false config in
    save_config config >>
    print "✅ CCGuide disabled successfully!" >>
    print "   No suggestions will be provided until re-enabled".

Definition toggle : C unit :=
  let* config := load_config in
  let current_state := get (enable_suggestions config) true in
  if current_state then disable else enable.

Definition configure (api_key : option string) (cooldown min_length : option Z)
  : C unit :=
  let* config := load_config in
  let changes_made := false in
  let* (config, changes_made) :=
    match api_key with
    | Some key =>
        if negb (PyStr.is_empty (PyStr.strip key)) then
          print "✅ API key updated" >>
          ret (set_api_key (PyStr.strip key) config, true)
        else
          print "❌ Invalid API key provided" >>
          ret (config, changes_made)
    | None => ret (config, changes_made)
    end in
  let* (config, changes_made) :=
    match cooldown with
    | Some seconds =>
        if 0 <=? seconds then
          print ("✅ Cooldown set to " ++ PyStr.str_of_int seconds ++ " seconds") >>
          ret (set_cooldown seconds config, true)
        else
          print "❌ Cooldown must be >= 0" >>
          ret (config, changes_made)
    | None => ret (config, changes_made)
    end in
  let* (config, changes_made) :=
    match min_length with
    | Some chars =>
        if 0 <=? chars then
          print ("✅ Minimum session length set to " ++ PyStr.str_of_int chars
                 ++ " characters") >>
          ret (set_min_length chars config, true)
        else
          print "❌ Minimum session length must be >= 0" >>
          ret (config, changes_made)
    | None => ret (config, changes_made)
    end in
  if (changes_made : bool) then
    save_config config >>
    print "✅ Configuration saved successfully"
  else
    print "⚠️  No changes made".

End Commands.

End CLI.

(** The value of an optional integer key, when present, is not negative. *)
Definition not_negative (v : option Z) : Prop := forall n, v = Some n -> 0 <= n.

(** * A concrete world: timestamps in whole seconds *)

(** An instance of [PyFloat] on integers, for running the model: [float]
    reads a decimal integer, [str] prints one. *)
Definition z_float (s : string) : outcome Z :=
  match NilZero.int_of_string s with
  | Some i => Returned (Z.of_int i)
  | None => Raised "could not convert string to float"
  end.

Definition whole_seconds : PyFloat :=
  {| pyfloat := Z;
     py_float := z_float;
     py_str := PyStr.str_of_int;
     fsub := Z.sub;
     flt_int := Z.ltb |}.

Abbreviation ZWorld := (@World whole_seconds).

(** The defaults of [load_config], with an API key. *)
Definition default_config : Config :=
  {| gemini_api_key := Some "test_key_placeholder";
     enable_suggestions := Some true;
     min_session_length := Some 100;
     suggestion_cooldown := Some 300 |}.

(** 1200 characters of code that mention an error. *)
Definition coding_transcript : string :=
  PyStr.repeat_str "def calculate(): return error " 40.

Definition fifty_a : string := PyStr.repeat_str "a" 50.

(** A world at its start: the state of the cooldown file, what writing it
    raises, and what the classifier and the generator answer. *)
Definition world_of (file : file_state) (write_fails : option exn)
  (classifier generator : outcome string) : ZWorld :=
  @Build_World whole_seconds
    (* clock *) (fun n => nth n [1700000000; 1700000020; 1700000040] 1700000900)
    (* ticks *) 0%nat
    (* cooldown_file *) file
    (* mkdir_error *) None
    (* write_error *) write_fails
    (* files *)
    (fun path =>
       if String.eqb path "transcript.txt" then Returned coding_transcript
       else Raised "No such file or directory")
    (* remote *)
    (fun _ model _ =>
       if String.eqb model "gemini-2.5-flash-lite" then classifier else generator)
    (* remote_calls *) []
    (* startup_error *) None
    (* loaded_config *) default_config
    (* log *) []
    (* stdout *) [].

Definition fresh_world (classifier : outcome string) : ZWorld :=
  world_of Absent None classifier (Returned "## Tips").

Definition w_yes : ZWorld := fresh_world (Returned "YES").




(** The cooldown file holds a timestamp 100 seconds before the first reading
    of the clock. *)
Definition w_cooling : ZWorld :=
  world_of (Content "1699999900") None (Returned "YES") (Returned "## Tips").

Definition w_no : ZWorld := fresh_world (Returned "NO").

(** A world by its transcript files and the dict [load_config] returns. *)
Definition world_with (transcripts : string -> outcome string) (config : Config)
  : ZWorld :=
  @Build_World whole_seconds
    (* clock *) (fun n => nth n [1700000000; 1700000020; 1700000040] 1700000900)
    (* ticks *) 0%nat
    (* cooldown_file *) Absent
    (* mkdir_error *) None
    (* write_error *) None
    (* files *) transcripts
    (* remote *) (fun _ _ _ => Raised "unreachable")
    (* remote_calls *) []
    (* startup_error *) None
    (* loaded_config *) config
    (* log *) []
    (* stdout *) [].

Definition empty_or_missing (path : string) : outcome string :=
  if String.eqb path "empty.txt" then Returned EmptyString
  else Raised "No such file or directory".

Definition w_empty_file : ZWorld := world_with empty_or_missing default_config.

(** No API key, in the file or in the environment. *)
Definition w_no_key : ZWorld :=
  world_with empty_or_missing (load_config_value None None).

(** The file sets an empty key; the environment has one. *)
Definition empty_key_file : Config :=
  {| gemini_api_key := Some EmptyString; enable_suggestions := None;
     min_session_length := None; suggestion_cooldown := None |}.

Definition w_shadowed_key : ZWorld :=
  world_with empty_or_missing (load_config_value (Some "env-key") (Some empty_key_file)).

Definition hook_argv : list string := ["stop_hook_handler.py"; "s1"; "transcript.txt"].

Definition no_environ : string -> option string := fun _ => None.

Definition long_context : string := PyStr.repeat_str "0123456789" 1600.

Definition medium_context : string := PyStr.repeat_str "0123456789" 300.

Definition blank_transcript : string := PyStr.repeat_str " " 120.

Definition cli_ready : CLI.State :=
  {| CLI.file := CLI.Holds default_config; CLI.save_error := None; CLI.printed := [] |}.

Definition cli_fresh : CLI.State :=
  {| CLI.file := CLI.Missing; CLI.save_error := None; CLI.printed := [] |}.

(** * Properties *)

Section Properties.

Context {FL : PyFloat}.

(** ** Session-type classification *)

Lemma first_match_none (rules : list (list string * string)) (text default : string) :
  (forall r, In r rules -> PyStr.any_in (fst r) text = false) ->
  first_match rules text default = default.
Proof.
  induction rules as [| [keywords label] rest IH]; intros Hnone; simpl.
  - reflexivity.
  - pose proof (Hnone (keywords, label) (or_introl eq_refl)) as Hmiss.
    simpl in Hmiss. rewrite Hmiss.
    apply IH. intros r Hr. apply Hnone. right. exact Hr.
Qed.

Lemma first_match_priority
  (pre post : list (list string * string)) (keywords : list string)
  (label text default : string) :
  (forall r, In r pre -> PyStr.any_in (fst r) text = false) ->
  PyStr.any_in keywords text = true ->
  first_match (pre ++ (keywords, label) :: post) text default = label.
Proof.
  induction pre as [| [k l] pre IH]; intros Hpre Hhit; simpl.
  - now rewrite Hhit.
  - pose proof (Hpre (k, l) (or_introl eq_refl)) as Hmiss.
    simpl in Hmiss. rewrite Hmiss.
    apply IH; [ | exact Hhit ]. intros r Hr. apply Hpre. right. exact Hr.
Qed.

Lemma first_match_in (rules : list (list string * string)) (text default : string) :
  In (first_match rules text default) (map snd rules ++ [default]).
Proof.
  induction rules as [| [keywords label] rest IH]; simpl.
  - now left.
  - destruct (PyStr.any_in keywords text); [ now left | right; exact IH ].
Qed.

Lemma first_match_default_inv
  (rules : list (list string * string)) (text default : string) :
  ~ In default (map snd rules) ->
  first_match rules text default = default ->
  forall r, In r rules -> PyStr.any_in (fst r) text = false.
Proof.
  induction rules as [| [keywords label] rest IH]; simpl; intros Hfresh Hres r Hr.
  - destruct Hr.
  - destruct (PyStr.any_in keywords text) eqn:Hhit.
    + exfalso. apply Hfresh. left. exact Hres.
    + destruct Hr as [<- | Hr]; [ exact Hhit | ].
      apply IH; auto.
Qed.

Lemma classify_is_first_match (context : string) :
  _classify_session_type context
  = first_match session_type_rules (PyStr.lower context) "general_development".
Proof.
  unfold _classify_session_type, session_type_rules, first_match.
  reflexivity.
Qed.

(** C8: [_classify_session_type] is a total function into the seven
    categories; it is the first-match evaluation of the six keyword rules in
    the order project_setup, bug_fixing, feature_development, refactoring,
    testing, deployment, so that a rule wins whenever no earlier rule matches,
    whatever later rules do, and general_development is returned exactly
    when no rule matches.  The empty string is general_development. *)
Theorem classify_session_type_total_priority (context : string) :
  let text := PyStr.lower context in
  In (_classify_session_type context) session_types
  /\ NoDup session_types
  /\ (map snd session_type_rules ++ ["general_development"])%list = session_types
  /\ _classify_session_type context
     = first_match session_type_rules text "general_development"
  /\ (forall pre keywords label post,
        session_type_rules = (pre ++ (keywords, label) :: post)%list ->
        (forall r, In r pre -> PyStr.any_in (fst r) text = false) ->
        PyStr.any_in keywords text = true ->
        _classify_session_type context = label)
  /\ ((forall r, In r session_type_rules -> PyStr.any_in (fst r) text = false) <->
      _classify_session_type context = "general_development")
  /\ _classify_session_type EmptyString = "general_development".
Proof.
  intros text. rewrite classify_is_first_match. fold text.
  assert (Hnodup : NoDup session_types).
  { unfold session_types.
    repeat (constructor; [ simpl; intros H;
      repeat (destruct H as [H | H]; [ discriminate H | ]); exact H | ]).
    constructor. }
  split; [ apply (first_match_in session_type_rules text "general_development") | ].
  split; [ exact Hnodup | ].
  split; [ reflexivity | ].
  split; [ reflexivity | ].
  split.
  { intros pre keywords label post Hrules Hpre Hhit.
    rewrite Hrules. now apply first_match_priority. }
  split; [ | reflexivity ].
  split; [ apply first_match_none | ].
  apply first_match_default_inv.
  simpl. intros H.
  repeat (destruct H as [H | H]; [ discriminate H | ]). exact H.
Qed.

(** ** The cooldown store *)

Ltac unfold_monad :=
  unfold try_except, bind, ret, raise, of_outcome, logger, time_time,
    cooldown_exists, cooldown_read_text, cooldown_mkdir_parent,
    cooldown_write_text, generate_content, open_read, print_json in *.

Lemma frame_refl (w : World) : frame w w.
Proof. unfold frame. repeat split; auto. Qed.

Lemma frame_trans (w1 w2 w3 : World) : frame w1 w2 -> frame w2 w3 -> frame w1 w3.
Proof.
  unfold frame.
  intros (H1 & H2 & H3 & H4 & H5 & H6) (K1 & K2 & K3 & K4 & K5 & K6).
  repeat split; try congruence. lia.
Qed.

Lemma frame_set_log (l : list (log_level * log_event)) (w : World) :
  frame w (set_log l w).
Proof. unfold frame. simpl. repeat split; auto. Qed.

Lemma is_in_cooldown_run (config : Config) (session_id : string) (w : World) :
  exists w',
    is_in_cooldown config session_id w = (Returned (cooldown_verdict config w), w')
    /\ cooldown_file w' = cooldown_file w
    /\ remote_calls w' = remote_calls w
    /\ frame w w'.
Proof.
  unfold is_in_cooldown, cooldown_verdict, frame. unfold_monad.
  destruct (cooldown_file w) as [| e | text] eqn:Hfile; simpl; rewrite ?Hfile; simpl.
  - eexists; split; [ reflexivity | ]. repeat split; auto.
  - eexists; split; [ reflexivity | ]. simpl. repeat split; auto.
  - destruct (py_float (PyStr.strip text)) as [last | e]; simpl.
    + destruct (flt_int _ _); eexists; (split; [ reflexivity | ]); simpl;
        repeat split; auto.
    + eexists; split; [ reflexivity | ]. simpl. repeat split; auto.
Qed.


Lemma erase_log_set_log (l : list (log_level * log_event)) (w : World) :
  erase_log (set_log l w) = erase_log w.
Proof. reflexivity. Qed.


Lemma update_cooldown_erase_log (w1 w2 : World) :
  erase_log w1 = erase_log w2 ->
  fst (update_cooldown w1) = fst (update_cooldown w2)
  /\ erase_log (snd (update_cooldown w1)) = erase_log (snd (update_cooldown w2)).
Proof.
  destruct w1, w2. unfold erase_log, set_log. simpl. intros H.
  injection H as -> -> -> -> -> -> -> -> -> -> ->.
  unfold update_cooldown. unfold_monad. simpl.
  destruct mkdir_error1; simpl; [ auto | ].
  destruct write_error1; simpl; auto.
Qed.

Lemma update_cooldown_run (w : World) :
  exists w',
    update_cooldown w = (Returned tt, w')
    /\ remote_calls w' = remote_calls w
    /\ frame w w'
    /\ (mkdir_error w = None -> write_error w = None -> recorded_now w').
Proof.
  unfold update_cooldown, frame, recorded_now. unfold_monad.
  destruct (mkdir_error w) as [e |] eqn:Hmk; simpl.
  - eexists; split; [ reflexivity | ]. simpl. repeat split; auto; discriminate.
  - rewrite ?Hmk. destruct (write_error w) as [e |] eqn:Hwr; simpl.
    + eexists; split; [ reflexivity | ]. simpl. repeat split; auto; discriminate.
    + eexists; split; [ reflexivity | ]. simpl. repeat split; auto; lia.
Qed.

Lemma _fallback_decision_run (analysis : Analysis) (w : World) :
  exists w',
    _fallback_decision analysis w = (Returned (3 <=? analysis_score analysis), w')
    /\ remote_calls w' = remote_calls w
    /\ frame w w'
    /\ ((3 <=? analysis_score analysis) = true ->
        mkdir_error w = None -> write_error w = None -> recorded_now w')
    /\ ((3 <=? analysis_score analysis) = true -> cooldown_updated w').
Proof.
  unfold _fallback_decision. cbv zeta.
  match goal with |- context [FallbackScore ?s _] => set (score := s) end.
  assert (Hscore : score = analysis_score analysis).
  { unfold score, analysis_score, fallback_score.
    destruct (0 <? a_complexity_indicators analysis), (a_has_errors analysis),
      (a_has_code analysis), (1000 <? a_length analysis); reflexivity. }
  clearbody score. subst score.
  unfold bind at 1. unfold logger at 1.
  unfold bind at 1.
  destruct (3 <=? analysis_score analysis) eqn:Hs.
  - destruct (update_cooldown_run (set_log (log w ++ [(INFO, UsingFallback)]) w))
      as (w1 & Hrun & Hcalls & Hframe & Hok).
    rewrite Hrun. unfold_monad. eexists; split; [ reflexivity | ].
    split; [ exact Hcalls | ].
    split; [ | split ].
    + eapply frame_trans; [ | apply frame_set_log ].
      eapply frame_trans; [ apply frame_set_log | exact Hframe ].
    + intros _ H1 H2. exact (Hok H1 H2).
    + intros _. eexists; eexists. rewrite Hrun. reflexivity.
  - unfold_monad. eexists; split; [ reflexivity | ].
    split; [ reflexivity | ].
    split; [ | split; discriminate ].
    eapply frame_trans; [ | apply frame_set_log ]. apply frame_set_log.
Qed.

(** ** The decision stage *)

(** The three gates, each closing the decision before any remote call. *)
Lemma should_suggest_closed
  (config : Config) (session_id session_context : string) (w : World) :
  get (enable_suggestions config) true = false
  \/ PyStr.len session_context < get (min_session_length config) 100
  \/ cooldown_verdict config w = true ->
  exists w',
    should_suggest config session_id session_context w = (Returned false, w')
    /\ remote_calls w' = remote_calls w
    /\ cooldown_file w' = cooldown_file w
    /\ frame w w'.
Proof.
  intros Hgate. unfold should_suggest.
  destruct (get (enable_suggestions config) true) eqn:Hen; cbn [negb]; cbv iota.
  - destruct (PyStr.len session_context <? get (min_session_length config) 100) eqn:Hlen.
    + unfold_monad. eexists; split; [ reflexivity | ].
      repeat split; simpl; auto.
    + destruct Hgate as [Hgate | [Hgate | Hgate]]; [ discriminate Hgate | | ].
      { apply Z.ltb_ge in Hlen. lia. }
      destruct (is_in_cooldown_run config session_id w)
        as (w0 & Hrun & Hfile & Hcalls & Hframe).
      rewrite Hgate in Hrun.
      unfold bind at 1. rewrite Hrun. unfold ret.
      eexists; split; [ reflexivity | ]. auto.
  - unfold_monad. eexists; split; [ reflexivity | ].
    repeat split; simpl; auto.
Qed.

Lemma should_suggest_past_gates
  (config : Config) (session_id session_context : string) (w : World) :
  get (enable_suggestions config) true = true ->
  get (min_session_length config) 100 <= PyStr.len session_context ->
  cooldown_verdict config w = false ->
  exists w0,
    is_in_cooldown config session_id w = (Returned false, w0)
    /\ cooldown_file w0 = cooldown_file w
    /\ remote_calls w0 = remote_calls w
    /\ frame w w0
    /\ should_suggest config session_id session_context w
       = try_except
           (text <- generate_content "gemini-2.5-flash-lite"
                      (decision_prompt (analyze_session_context session_context)
                                       session_context) ;;
            logger INFO (GeminiDecision session_id (PyStr.upper (PyStr.strip text))
                           (String.eqb (PyStr.upper (PyStr.strip text)) "YES")) ;;
            (if String.eqb (PyStr.upper (PyStr.strip text)) "YES"
             then update_cooldown else ret tt) ;;
            ret (String.eqb (PyStr.upper (PyStr.strip text)) "YES"))
           (fun e =>
              logger ERROR (DecisionEngineFailed e) ;;
              _fallback_decision (analyze_session_context session_context))
           (set_log
              (log w0 ++
               [(INFO, SessionAnalysis (analyze_session_context session_context))])
              w0).
Proof.
  intros Hen Hlen Hcool.
  destruct (is_in_cooldown_run config session_id w)
    as (w0 & Hrun & Hfile & Hcalls & Hframe).
  rewrite Hcool in Hrun.
  exists w0. do 4 (split; [ assumption | ]).
  unfold should_suggest. rewrite Hen. change (negb true) with false. cbv iota.
  replace (PyStr.len session_context <? get (min_session_length config) 100) with false
    by (symmetry; apply Z.ltb_ge; exact Hlen).
  cbv iota. unfold bind at 1. rewrite Hrun. cbv zeta.
  unfold bind at 1. unfold logger at 1. reflexivity.
Qed.




Lemma cooling_verdict (config : Config) (session_id : string) (w : World) :
  fst (is_in_cooldown config session_id w) = Returned true ->
  cooldown_verdict config w = true.
Proof.
  destruct (is_in_cooldown_run config session_id w) as (w0 & Hrun & _).
  rewrite Hrun. simpl. intros H. now injection H.
Qed.

(** C4: with suggestions disabled, or with a transcript shorter than
    [min_session_length], [should_suggest] returns [False]; the world is left
    as it was but for one log line, so no remote call was made (and neither
    the clock nor the cooldown file was consulted). *)
Theorem should_suggest_disabled_or_short
  (config : Config) (session_id session_context : string) (w : World) :
  get (enable_suggestions config) true = false
  \/ PyStr.len session_context < get (min_session_length config) 100 ->
  (exists ev,
     should_suggest config session_id session_context w
     = (Returned false, set_log (log w ++ [(INFO, ev)]) w))
  /\ remote_calls (snd (should_suggest config session_id session_context w))
     = remote_calls w.
Proof.
  intros Hgate.
  assert (Hrun : exists ev,
     should_suggest config session_id session_context w
     = (Returned false, set_log (log w ++ [(INFO, ev)]) w)).
  { unfold should_suggest.
    destruct (get (enable_suggestions config) true) eqn:Hen; cbn [negb]; cbv iota.
    - destruct Hgate as [Hgate | Hgate]; [ discriminate Hgate | ].
      apply Z.ltb_lt in Hgate. rewrite Hgate.
      exists SessionTooShort. reflexivity.
    - exists SuggestionsDisabled. reflexivity. }
  split; [ exact Hrun | ].
  destruct Hrun as (ev & ->). reflexivity.
Qed.



(** ** Independence from the session identifier *)

Lemma _fallback_decision_erase_log (analysis : Analysis) (w1 w2 : World) :
  erase_log w1 = erase_log w2 ->
  fst (_fallback_decision analysis w1) = fst (_fallback_decision analysis w2)
  /\ erase_log (snd (_fallback_decision analysis w1))
     = erase_log (snd (_fallback_decision analysis w2)).
Proof.
  intros H. unfold _fallback_decision. cbv zeta.
  match goal with |- context [FallbackScore ?s _] => generalize s; intros score end.
  cbv [bind logger ret].
  destruct (3 <=? score).
  - pose proof (update_cooldown_erase_log
                  (set_log (log w1 ++ [(INFO, UsingFallback)]) w1)
                  (set_log (log w2 ++ [(INFO, UsingFallback)]) w2) H) as [Hfst Hsnd].
    destruct (update_cooldown (set_log (log w1 ++ [(INFO, UsingFallback)]) w1))
      as [[[] | e1] w1'];
    destruct (update_cooldown (set_log (log w2 ++ [(INFO, UsingFallback)]) w2))
      as [[[] | e2] w2']; simpl in *; try discriminate;
      (split; [ congruence | assumption ]).
  - simpl. auto.
Qed.

(** C10: the session identifier has no influence on the decision.  For any
    configuration, transcript and world (cooldown file, clock, remote
    replies), two calls of [should_suggest] that differ in the session id
    only give the same verdict and leave worlds that agree on everything but
    the log: the same cooldown file, the same clock readings taken, the same
    remote calls.  [is_in_cooldown] ignores its session id altogether, the
    cooldown being the one file of the world. *)
Theorem should_suggest_session_independent
  (config : Config) (session1 session2 session_context : string) (w : World) :
  let run1 := should_suggest config session1 session_context w in
  let run2 := should_suggest config session2 session_context w in
  fst run1 = fst run2
  /\ erase_log (snd run1) = erase_log (snd run2)
  /\ cooldown_file (snd run1) = cooldown_file (snd run2)
  /\ remote_calls (snd run1) = remote_calls (snd run2)
  /\ is_in_cooldown config session1 w = is_in_cooldown config session2 w.
Proof.
  intros run1 run2.
  assert (H : fst run1 = fst run2 /\ erase_log (snd run1) = erase_log (snd run2)).
  { subst run1 run2. unfold should_suggest.
    destruct (negb (get (enable_suggestions config) true)); [ simpl; auto | ].
    destruct (PyStr.len session_context <? get (min_session_length config) 100);
      [ simpl; auto | ].
    change (is_in_cooldown config session2) with (is_in_cooldown config session1).
    cbv [bind try_except generate_content logger ret].
    destruct (is_in_cooldown config session1 w) as [[[|] | e] w0]; simpl; auto.
    destruct (remote w0 _ _ _) as [reply | e]; simpl.
    - destruct (String.eqb (PyStr.upper (PyStr.strip reply)) "YES"); simpl; auto.
      match goal with
      | |- fst ?L = fst ?R /\ _ =>
          match L with context [update_cooldown ?wa] =>
          match R with context [update_cooldown ?wb] =>
            pose proof (update_cooldown_erase_log wa wb eq_refl) as [_ Hsnd];
            destruct (update_cooldown_run wa) as (wa' & Ha & _);
            destruct (update_cooldown_run wb) as (wb' & Hb & _);
            rewrite Ha, Hb in *
          end end
      end.
      simpl in *. auto.
    - apply _fallback_decision_erase_log. reflexivity. }
  destruct H as [H1 H2]. repeat split; auto.
  - apply (f_equal cooldown_file) in H2. exact H2.
  - apply (f_equal remote_calls) in H2. exact H2.
Qed.



(** ** The suggestion stage *)

Lemma is_empty_append (a b : string) :
  PyStr.is_empty (a ++ b) = (PyStr.is_empty a && PyStr.is_empty b)%bool.
Proof. destruct a; reflexivity. Qed.

Lemma is_empty_false (s : string) : PyStr.is_empty s = false <-> s <> EmptyString.
Proof.
  destruct s; simpl; split; intros H; try discriminate; try reflexivity.
  now contradiction H.
Qed.

Lemma append_assoc (a b c : string) : (a ++ b) ++ c = a ++ (b ++ c).
Proof. induction a as [| ch a IH]; simpl; [ reflexivity | now rewrite IH ]. Qed.

Lemma append_empty_r (a : string) : a ++ EmptyString = a.
Proof. induction a as [| ch a IH]; simpl; [ reflexivity | now rewrite IH ]. Qed.

Lemma session_footer_not_empty (analysis : Components) :
  PyStr.is_empty (session_footer analysis) = false.
Proof.
  unfold session_footer.
  destruct (c_languages analysis), (c_frameworks analysis); reflexivity.
Qed.

Lemma fallback_suggestions_shape (analysis : Components) :
  _generate_fallback_suggestions analysis
  = fallback_header ++ fallback_template (c_session_type analysis)
    ++ technologies_clause (c_languages analysis) ++ fallback_disclaimer.
Proof.
  unfold _generate_fallback_suggestions, fallback_template, technologies_clause.
  destruct (String.eqb (c_session_type analysis) "bug_fixing");
    [ | destruct (String.eqb (c_session_type analysis) "feature_development") ];
    destruct (c_languages analysis) as [| l ls];
    rewrite ?append_assoc; reflexivity.
Qed.

Lemma fallback_suggestions_not_empty (analysis : Components) :
  PyStr.is_empty (_generate_fallback_suggestions analysis) = false.
Proof.
  rewrite fallback_suggestions_shape. reflexivity.
Qed.

Lemma generate_contextual_suggestions_run (session_context : string) (w : World) :
  exists w',
    generate_contextual_suggestions session_context w
    = (Returned
         match remote w (List.length (remote_calls w)) suggestion_model
                 (_build_suggestion_prompt session_context
                    (analyze_session_components session_context)) with
         | Returned reply =>
             PyStr.strip reply
             ++ session_footer (analyze_session_components session_context)
         | Raised _ =>
             _generate_fallback_suggestions (analyze_session_components session_context)
         end, w')
    /\ stdout w' = stdout w
    /\ cooldown_file w' = cooldown_file w.
Proof.
  unfold generate_contextual_suggestions. cbv zeta. unfold_monad.
  fold suggestion_model.
  destruct (remote w _ suggestion_model _) as [reply | e]; simpl;
    eexists; (split; [ reflexivity | ]); simpl; auto.
Qed.


(** ** The orchestrator *)

Lemma read_transcript_run (transcript_path : string) (w : World) :
  exists w',
    read_transcript transcript_path w
    = (Returned match files w transcript_path with
                | Returned content => content
                | Raised _ => EmptyString
                end, w')
    /\ erase_log w' = erase_log w.
Proof.
  unfold read_transcript. unfold_monad.
  destruct (files w transcript_path) as [content | e]; simpl;
    eexists; (split; [ reflexivity | ]); reflexivity.
Qed.


(** C9, amended: when the transcript read is not empty and the decision
    stage returns [True], [process_stop_hook] returns the dict whose [block]
    is [False], whose [context] is the text of the suggestion stage and
    whose [reason] is the string CCGuide suggestions available. *)
Theorem process_stop_hook_suggests
  (config : Config) (session_id transcript_path session_context text : string)
  (w w_read w_decided w_final : World) :
  read_transcript transcript_path
    (set_log (log w ++ [(INFO, ProcessingStopHook session_id)]) w)
  = (Returned session_context, w_read) ->
  session_context <> EmptyString ->
  should_suggest config session_id session_context w_read = (Returned true, w_decided) ->
  generate_contextual_suggestions session_context w_decided = (Returned text, w_final) ->
  process_stop_hook config session_id transcript_path w
  = (Returned {| block := false;
                 context := Some text;
                 reason := Some "CCGuide suggestions available";
                 error := None |}, w_final).
Proof.
  intros Hread Hctx Hdec Hgen.
  unfold process_stop_hook.
  unfold bind at 1. unfold logger at 1.
  unfold bind at 1. rewrite Hread.
  apply is_empty_false in Hctx. rewrite Hctx.
  unfold bind at 1. rewrite Hdec. cbn [negb]; cbv iota.
  unfold bind at 1. rewrite Hgen.
  destruct (generate_contextual_suggestions_run session_context w_decided)
    as (w3 & Hgen' & _).
  rewrite Hgen in Hgen'. injection Hgen' as Htext _.
  assert (Hne : PyStr.is_empty text = false).
  { rewrite Htext.
    destruct (remote w_decided _ _ _).
    - rewrite is_empty_append, session_footer_not_empty. apply andb_false_r.
    - apply fallback_suggestions_not_empty. }
  rewrite Hne. reflexivity.
Qed.



End Properties.

(** * Properties of the rest of the code *)

(** ** Text analysis *)

Section StringFacts.

Lemma lower_upper_char (c : ascii) :
  PyStr.lower_char (PyStr.upper_char c) = PyStr.lower_char c.
Proof. destruct c as [[] [] [] [] [] [] [] []]; reflexivity. Qed.

Lemma lower_lower_char (c : ascii) :
  PyStr.lower_char (PyStr.lower_char c) = PyStr.lower_char c.
Proof. destruct c as [[] [] [] [] [] [] [] []]; reflexivity. Qed.

Lemma is_space_upper_char (c : ascii) :
  PyStr.is_space (PyStr.upper_char c) = PyStr.is_space c.
Proof. destruct c as [[] [] [] [] [] [] [] []]; reflexivity. Qed.


Lemma lower_char_space (c : ascii) :
  PyStr.is_space c = true -> PyStr.lower_char c = c.
Proof. destruct c as [[] [] [] [] [] [] [] []]; intros H; try reflexivity; discriminate H. Qed.

Lemma map_chars_append (f : ascii -> ascii) (a b : string) :
  PyStr.map_chars f (a ++ b) = PyStr.map_chars f a ++ PyStr.map_chars f b.
Proof. induction a as [| c a IH]; simpl; [ reflexivity | now rewrite IH ]. Qed.

Lemma map_chars_compose (f g h : ascii -> ascii) (s : string) :
  (forall c, f (g c) = h c) ->
  PyStr.map_chars f (PyStr.map_chars g s) = PyStr.map_chars h s.
Proof.
  intros Hc. induction s as [| c s IH]; simpl; [ reflexivity | now rewrite IH, Hc ].
Qed.




Lemma prefix_spec (needle hay : string) :
  prefix needle hay = true <-> exists post, hay = needle ++ post.
Proof.
  revert hay. induction needle as [| a needle IH]; intros hay.
  - split; [ intros _; now exists hay | intros _; now destruct hay ].
  - destruct hay as [| b hay]; simpl.
    + split; [ discriminate | intros (post & H); discriminate H ].
    + destruct (ascii_dec a b) as [<- | Hneq].
      * rewrite IH. split; intros (post & H); exists post.
        -- now rewrite H.
        -- now injection H.
      * split; [ discriminate | ].
        intros (post & H). injection H as H1 _. now contradiction Hneq.
Qed.

Lemma contains_nil (needle : string) :
  PyStr.contains needle EmptyString = prefix needle EmptyString.
Proof. unfold PyStr.contains. apply orb_false_r. Qed.

Lemma contains_cons (needle : string) (c : ascii) (hay : string) :
  PyStr.contains needle (String c hay)
  = (prefix needle (String c hay) || PyStr.contains needle hay)%bool.
Proof. reflexivity. Qed.

(** [PyStr.contains] is the substring relation. *)
Lemma contains_spec (needle hay : string) :
  PyStr.contains needle hay = true <-> exists pre post, hay = pre ++ needle ++ post.
Proof.
  induction hay as [| c hay IH].
  - rewrite contains_nil, prefix_spec. split.
    + intros (post & H). now exists EmptyString, post.
    + intros (pre & post & H). destruct pre; [ now exists post | discriminate H ].
  - rewrite contains_cons, orb_true_iff, prefix_spec, IH. split.
    + intros [(post & H) | (pre & post & H)].
      * now exists EmptyString, post.
      * exists (String c pre), post. simpl. now rewrite H.
    + intros (pre & post & H). destruct pre as [| c' pre].
      * left. now exists post.
      * right. injection H as _ H. now exists pre, post.
Qed.

Lemma contains_append_r (needle s t : string) :
  PyStr.contains needle s = true -> PyStr.contains needle (s ++ t) = true.
Proof.
  rewrite !contains_spec. intros (pre & post & ->).
  exists pre, (post ++ t). now rewrite !append_assoc.
Qed.

Lemma contains_append_l (needle s t : string) :
  PyStr.contains needle s = true -> PyStr.contains needle (t ++ s) = true.
Proof.
  rewrite !contains_spec. intros (pre & post & ->).
  exists (t ++ pre), post. now rewrite !append_assoc.
Qed.

Lemma contains_trans (a b s : string) :
  PyStr.contains a b = true -> PyStr.contains b s = true ->
  PyStr.contains a s = true.
Proof.
  rewrite !contains_spec. intros (p1 & q1 & ->) (p2 & q2 & ->).
  exists (p2 ++ p1), (q1 ++ q2). now rewrite !append_assoc.
Qed.

Lemma all_chars_append (p : ascii -> bool) (a b : string) :
  all_chars p (a ++ b) = (all_chars p a && all_chars p b)%bool.
Proof.
  induction a as [| c a IH]; simpl; [ reflexivity | ].
  now rewrite IH, andb_assoc.
Qed.

(** A needle with a character failing [p] does not occur in a text whose
    characters all pass [p]. *)
Lemma contains_all_chars (p : ascii -> bool) (needle hay : string) :
  all_chars p hay = true -> all_chars p needle = false ->
  PyStr.contains needle hay = false.
Proof.
  intros Hhay Hneedle.
  destruct (PyStr.contains needle hay) eqn:Hin; [ | reflexivity ].
  apply contains_spec in Hin. destruct Hin as (pre & post & ->).
  rewrite !all_chars_append, Hneedle in Hhay.
  rewrite andb_false_l, andb_false_r in Hhay. discriminate Hhay.
Qed.

Lemma any_in_all_chars (p : ascii -> bool) (keywords : list string) (text : string) :
  all_chars p text = true ->
  forallb (fun k => negb (all_chars p k)) keywords = true ->
  PyStr.any_in keywords text = false.
Proof.
  intros Htext. unfold PyStr.any_in.
  induction keywords as [| k ks IH]; simpl; [ reflexivity | ].
  intros H. apply andb_true_iff in H. destruct H as [Hk Hks].
  apply negb_true_iff in Hk.
  now rewrite (contains_all_chars p k text Htext Hk), IH.
Qed.


Lemma lower_blank (s : string) : blank s = true -> PyStr.lower s = s.
Proof.
  unfold PyStr.lower.
  induction s as [| c s IH]; simpl; [ reflexivity | ].
  intros H. apply andb_true_iff in H. destruct H as [Hc Hs].
  now rewrite (lower_char_space c Hc), IH.
Qed.

Lemma split_blank (s : string) : blank s = true -> PyStr.split s = [].
Proof.
  unfold PyStr.split.
  induction s as [| c s IH]; simpl; [ reflexivity | ].
  intros H. apply andb_true_iff in H. destruct H as [Hc Hs].
  rewrite Hc. simpl. now apply IH.
Qed.


Lemma lower_idem (s : string) : PyStr.lower (PyStr.lower s) = PyStr.lower s.
Proof. apply map_chars_compose, lower_lower_char. Qed.

Lemma lower_upper (s : string) : PyStr.lower (PyStr.upper s) = PyStr.lower s.
Proof. apply map_chars_compose, lower_upper_char. Qed.




Lemma detect_In (table : list (string * list string)) (context key : string) :
  In key (detect table context) <->
  exists indicators,
    In (key, indicators) table
    /\ PyStr.any_in indicators (PyStr.lower context) = true.
Proof.
  unfold detect. rewrite in_map_iff. split.
  - intros ([k inds] & Hk & Hin). simpl in Hk. subst k.
    apply filter_In in Hin. now exists inds.
  - intros (inds & Hin & Hhit). exists (key, inds). split; [ reflexivity | ].
    apply filter_In. now split.
Qed.


Lemma any_in_blank (keywords : list string) (s : string) :
  blank s = true ->
  forallb (fun k => negb (blank k)) keywords = true ->
  PyStr.any_in keywords s = false.
Proof. apply any_in_all_chars. Qed.

Lemma detect_blank (table : list (string * list string)) (s : string) :
  blank s = true ->
  forallb (fun e => forallb (fun k => negb (blank k)) (snd e)) table = true ->
  detect table s = [].
Proof.
  intros Hs. unfold detect. rewrite (lower_blank s Hs).
  induction table as [| [key inds] table IH]; simpl; [ reflexivity | ].
  intros H. apply andb_true_iff in H. destruct H as [Hinds Htable].
  rewrite (any_in_blank inds s Hs Hinds). now apply IH.
Qed.

Lemma count_in_blank (keywords : list string) (s : string) :
  blank s = true ->
  forallb (fun k => negb (blank k)) keywords = true ->
  PyStr.count_in keywords s = 0.
Proof.
  intros Hs. unfold PyStr.count_in.
  induction keywords as [| k ks IH]; simpl; [ reflexivity | ].
  intros H. apply andb_true_iff in H. destruct H as [Hk Hks].
  apply negb_true_iff in Hk.
  rewrite (contains_all_chars PyStr.is_space k s Hs Hk). now apply IH.
Qed.

Lemma _detect_patterns_blank (s : string) : blank s = true -> _detect_patterns s = [].
Proof.
  intros Hs. unfold _detect_patterns. rewrite (lower_blank s Hs).
  unfold pattern_indicators. simpl.
  rewrite !(count_in_blank _ s Hs) by reflexivity. reflexivity.
Qed.

(** X6: a transcript of white space only has no feature at all: every flag
    of the decision analysis is false and no complexity word is counted, no
    language, framework, tool, pattern or issue is detected, the session type
    is general_development, and the fallback score stays below 3. *)
Theorem blank_transcript_has_no_features (s : string) :
  blank s = true ->
  analyze_session_context s
  = {| a_length := PyStr.len s; a_has_code := false; a_has_errors := false;
       a_has_testing := false; a_has_git := false; a_complexity_indicators := 0 |}
  /\ analyze_session_components s
     = {| c_languages := []; c_frameworks := []; c_tools := []; c_patterns := [];
          c_issues := []; c_session_type := "general_development" |}
  /\ (3 <=? analysis_score (analyze_session_context s)) = false.
Proof.
  intros Hs.
  assert (Hctx : analyze_session_context s
    = {| a_length := PyStr.len s; a_has_code := false; a_has_errors := false;
         a_has_testing := false; a_has_git := false; a_complexity_indicators := 0 |}).
  { unfold analyze_session_context. rewrite (lower_blank s Hs), (split_blank s Hs).
    unfold code_keywords, error_keywords, testing_keywords, git_keywords.
    rewrite !(any_in_blank _ s Hs) by reflexivity. reflexivity. }
  split; [ exact Hctx | split ].
  - unfold analyze_session_components, _detect_languages, _detect_frameworks,
      _detect_tools, _detect_potential_issues.
    rewrite !(detect_blank _ s Hs) by reflexivity.
    rewrite (_detect_patterns_blank s Hs).
    unfold _classify_session_type. rewrite (lower_blank s Hs).
    rewrite !(any_in_blank _ s Hs) by reflexivity. reflexivity.
  - rewrite Hctx. unfold analysis_score, fallback_score. simpl.
    destruct (1000 <? PyStr.len s); reflexivity.
Qed.

Lemma any_in_mono (keywords : list string) (s u : string) :
  (forall k, PyStr.contains k s = true -> PyStr.contains k u = true) ->
  PyStr.any_in keywords s = true -> PyStr.any_in keywords u = true.
Proof.
  intros Hsub. unfold PyStr.any_in. rewrite !existsb_exists.
  intros (k & Hk & Hhit). exists k. auto.
Qed.

Lemma count_in_mono (keywords : list string) (s u : string) :
  (forall k, PyStr.contains k s = true -> PyStr.contains k u = true) ->
  PyStr.count_in keywords s <= PyStr.count_in keywords u.
Proof.
  intros Hsub. unfold PyStr.count_in. apply Nat2Z.inj_le.
  induction keywords as [| k ks IH]; simpl; [ lia | ].
  destruct (PyStr.contains k s) eqn:Hk.
  - rewrite (Hsub k Hk). simpl. lia.
  - destruct (PyStr.contains k u); simpl; lia.
Qed.

Lemma detect_mono (table : list (string * list string)) (s u : string) :
  (forall k, PyStr.contains k (PyStr.lower s) = true ->
             PyStr.contains k (PyStr.lower u) = true) ->
  incl (detect table s) (detect table u).
Proof.
  intros Hsub key. rewrite !detect_In. intros (inds & Hin & Hhit).
  exists inds. split; [ exact Hin | ]. now apply (any_in_mono inds _ _ Hsub).
Qed.

Lemma lower_substring (pre s post k : string) :
  PyStr.contains k (PyStr.lower s) = true ->
  PyStr.contains k (PyStr.lower (pre ++ s ++ post)) = true.
Proof.
  intros H. unfold PyStr.lower in *. rewrite !map_chars_append.
  now apply contains_append_l, contains_append_r.
Qed.

Lemma length_append (a b : string) :
  String.length (a ++ b) = (String.length a + String.length b)%nat.
Proof. induction a as [| c a IH]; simpl; [ reflexivity | now rewrite IH ]. Qed.

(** X7: text added before or after a transcript never removes a detection:
    the four flags of the decision analysis stay set, and every language,
    framework, tool, pattern and issue detected in the part is detected in
    the whole.  (The count of complexity words and the session type are not
    monotone.) *)
Theorem detections_grow_with_text (pre s post : string) :
  let a := analyze_session_context s in
  let a' := analyze_session_context (pre ++ s ++ post) in
  a_length a <= a_length a'
  /\ (a_has_code a = true -> a_has_code a' = true)
  /\ (a_has_errors a = true -> a_has_errors a' = true)
  /\ (a_has_testing a = true -> a_has_testing a' = true)
  /\ (a_has_git a = true -> a_has_git a' = true)
  /\ incl (_detect_languages s) (_detect_languages (pre ++ s ++ post))
  /\ incl (_detect_frameworks s) (_detect_frameworks (pre ++ s ++ post))
  /\ incl (_detect_tools s) (_detect_tools (pre ++ s ++ post))
  /\ incl (_detect_patterns s) (_detect_patterns (pre ++ s ++ post))
  /\ incl (_detect_potential_issues s) (_detect_potential_issues (pre ++ s ++ post)).
Proof.
  intros a a'.
  assert (Hsub : forall k, PyStr.contains k (PyStr.lower s) = true ->
                           PyStr.contains k (PyStr.lower (pre ++ s ++ post)) = true)
    by (intros k; apply lower_substring).
  split.
  { unfold a, a', analyze_session_context, PyStr.len. simpl.
    rewrite !length_append. lia. }
  do 4 (split; [ apply (any_in_mono _ _ _ Hsub) | ]).
  do 3 (split; [ apply (detect_mono _ _ _ Hsub) | ]).
  split; [ | apply (detect_mono _ _ _ Hsub) ].
  unfold _detect_patterns. intros key. rewrite !in_map_iff.
  intros (e & He & Hin). exists e. split; [ exact He | ].
  apply filter_In in Hin. apply filter_In. destruct Hin as [Hin Hcount].
  split; [ exact Hin | ].
  apply Z.leb_le in Hcount. apply Z.leb_le.
  pose proof (count_in_mono (snd e) _ _ Hsub). lia.
Qed.

End StringFacts.

(** ** Effects of the pipeline *)

Section Effects.

Context {FL : PyFloat}.

Ltac unfold_effects :=
  unfold try_except, bind, ret, raise, of_outcome, logger, time_time,
    cooldown_exists, cooldown_read_text, cooldown_mkdir_parent,
    cooldown_write_text, generate_content, open_read, print_json in *.

Lemma update_cooldown_calls (w : World) :
  remote_calls (snd (update_cooldown w)) = remote_calls w
  /\ stdout (snd (update_cooldown w)) = stdout w.
Proof.
  destruct (update_cooldown_run w) as (w' & Hrun & Hcalls & (Hout & _) & _).
  rewrite Hrun. simpl. auto.
Qed.

Lemma _fallback_decision_effects (analysis : Analysis) (w : World) :
  exists b w',
    _fallback_decision analysis w = (Returned b, w')
    /\ remote_calls w' = remote_calls w
    /\ stdout w' = stdout w
    /\ (b = false -> cooldown_file w' = cooldown_file w).
Proof.
  destruct (_fallback_decision_run analysis w)
    as (w' & Hrun & Hcalls & (Hout & _) & _).
  exists (3 <=? analysis_score analysis), w'.
  do 3 (split; [ assumption | ]).
  intros Hlow. revert Hrun.
  unfold _fallback_decision. cbv zeta.
  match goal with |- context [FallbackScore ?s _] => set (score := s) end.
  assert (Hscore : score = analysis_score analysis).
  { unfold score, analysis_score, fallback_score.
    destruct (0 <? a_complexity_indicators analysis), (a_has_errors analysis),
      (a_has_code analysis), (1000 <? a_length analysis); reflexivity. }
  clearbody score. subst score. rewrite Hlow.
  unfold_effects. intros H. injection H as <-. reflexivity.
Qed.

Lemma should_suggest_effects
  (config : Config) (session_id session_context : string) (w : World) :
  exists b w',
    should_suggest config session_id session_context w = (Returned b, w')
    /\ stdout w' = stdout w
    /\ (b = false -> cooldown_file w' = cooldown_file w)
    /\ (b = true ->
        remote_calls w' = (remote_calls w ++ [decision_call session_context])%list)
    /\ (remote_calls w' = remote_calls w
        \/ remote_calls w'
           = (remote_calls w ++ [decision_call session_context])%list).
Proof.
  assert (Hclosed :
    get (enable_suggestions config) true = false
    \/ PyStr.len session_context < get (min_session_length config) 100
    \/ cooldown_verdict config w = true ->
    exists b w',
      should_suggest config session_id session_context w = (Returned b, w')
      /\ stdout w' = stdout w
      /\ (b = false -> cooldown_file w' = cooldown_file w)
      /\ (b = true ->
          remote_calls w' = (remote_calls w ++ [decision_call session_context])%list)
      /\ (remote_calls w' = remote_calls w
          \/ remote_calls w'
             = (remote_calls w ++ [decision_call session_context])%list)).
  { intros Hgate.
    destruct (should_suggest_closed config session_id session_context w Hgate)
      as (w' & Hrun & Hcalls & Hfile & (Hout & _)).
    exists false, w'. repeat split; auto. discriminate. }
  destruct (get (enable_suggestions config) true) eqn:Hen; [ | now apply Hclosed; left ].
  destruct (Z.lt_ge_cases (PyStr.len session_context)
                          (get (min_session_length config) 100)) as [Hlen | Hlen];
    [ now apply Hclosed; right; left | ].
  destruct (cooldown_verdict config w) eqn:Hcool;
    [ now apply Hclosed; right; right | ].
  clear Hclosed.
  destruct (should_suggest_past_gates config session_id session_context w Hen Hlen Hcool)
    as (w0 & _ & Hfile & Hcalls & (Hout & _ & _ & Hrem & _) & ->).
  unfold try_except. unfold bind at 1. unfold generate_content at 1.
  cbn [remote remote_calls set_log]. rewrite Hrem, Hcalls.
  fold (decision_call session_context).
  destruct (remote w _ _ _) as [reply | e].
  - unfold bind at 1. unfold logger at 1. unfold bind at 1.
    destruct (String.eqb (PyStr.upper (PyStr.strip reply)) "YES").
    + match goal with |- context [update_cooldown ?w1] =>
        destruct (update_cooldown_run w1) as (w2 & Hrun & Hcalls2 & (Hout2 & _) & _)
      end.
      rewrite Hrun. unfold ret. eexists; eexists. split; [ reflexivity | ].
      simpl in *. repeat split; try congruence; try discriminate.
      right. congruence.
    + unfold ret. eexists; eexists. split; [ reflexivity | ].
      simpl. repeat split; try congruence; try discriminate. now right.
  - unfold bind at 1. unfold logger at 1.
    match goal with |- context [_fallback_decision ?a ?w1] =>
      destruct (_fallback_decision_effects a w1) as (b & w2 & Hrun & Hcalls2 & Hout2 & Hkeep)
    end.
    rewrite Hrun. exists b, w2. split; [ reflexivity | ].
    simpl in *. repeat split; try congruence.
    + intros Hb. rewrite (Hkeep Hb). exact Hfile.
    + right. congruence.
Qed.

Lemma generate_contextual_suggestions_effects (session_context : string) (w : World) :
  exists text w',
    generate_contextual_suggestions session_context w = (Returned text, w')
    /\ PyStr.is_empty text = false
    /\ w' = set_log (log w') (set_remote_calls
                                (remote_calls w ++ [suggestion_call session_context]) w).
Proof.
  destruct (generate_contextual_suggestions_run session_context w) as (w' & Hrun & _).
  eexists; exists w'. split; [ exact Hrun | ]. split.
  - destruct (remote w _ _ _) as [reply | e].
    + rewrite is_empty_append, session_footer_not_empty. apply andb_false_r.
    + apply fallback_suggestions_not_empty.
  - revert Hrun. unfold generate_contextual_suggestions. cbv zeta. unfold_effects.
    fold (suggestion_call session_context).
    destruct (remote w _ _ _) as [reply | e]; intros H; injection H as <-; reflexivity.
Qed.

Lemma contains_self_append (s post : string) : PyStr.contains s (s ++ post) = true.
Proof. apply contains_spec. now exists EmptyString, post. Qed.

Lemma decision_prompt_embeds (analysis : Analysis) (session_context : string) :
  PyStr.contains session_context (decision_prompt analysis session_context) = true.
Proof.
  unfold decision_prompt.
  repeat (apply contains_self_append || apply contains_append_l).
Qed.

Lemma suggestion_prompt_embeds (analysis : Components) (session_context : string) :
  PyStr.contains session_context
    (_build_suggestion_prompt session_context analysis) = true.
Proof.
  unfold _build_suggestion_prompt.
  repeat (apply contains_self_append || apply contains_append_l).
Qed.

Lemma CCGuide_init_effects (w : World) :
  exists o w', CCGuide_init w = (o, w') /\ erase_log w' = erase_log w.
Proof.
  unfold CCGuide_init, setup_logging, load_config, setup_gemini. unfold_effects.
  destruct (startup_error w); simpl; [ eauto | ].
  destruct (PyStr.is_empty _); simpl; eauto.
Qed.

Lemma process_stop_hook_cases
  (config : Config) (session_id transcript_path : string) (w : World) :
  exists r w',
    process_stop_hook config session_id transcript_path w = (Returned r, w')
    /\ stdout w' = stdout w
    /\ ((r = result_plain
         /\ cooldown_file w' = cooldown_file w
         /\ (remote_calls w' = remote_calls w
             \/ exists session_context,
                  files w transcript_path = Returned session_context
                  /\ remote_calls w'
                     = (remote_calls w ++ [decision_call session_context])%list))
        \/ (exists session_context text,
              files w transcript_path = Returned session_context
              /\ session_context <> EmptyString
              /\ text <> EmptyString
              /\ r = result_suggestion text
              /\ remote_calls w'
                 = (remote_calls w
                    ++ [decision_call session_context;
                        suggestion_call session_context])%list)).
Proof.
  unfold process_stop_hook.
  unfold bind at 1. unfold logger at 1.
  destruct (read_transcript_run transcript_path
              (set_log (log w ++ [(INFO, ProcessingStopHook session_id)]) w))
    as (w1 & Hread & Hsame).
  unfold bind at 1. rewrite Hread. cbn [files set_log] in *.
  assert (Hout1 : stdout w1 = stdout w) by (apply (f_equal stdout) in Hsame; exact Hsame).
  assert (Hfile1 : cooldown_file w1 = cooldown_file w)
    by (apply (f_equal cooldown_file) in Hsame; exact Hsame).
  assert (Hcalls1 : remote_calls w1 = remote_calls w)
    by (apply (f_equal remote_calls) in Hsame; exact Hsame).
  destruct (files w transcript_path) as [session_context | e] eqn:Hfiles.
  2:{ simpl. unfold ret. exists result_plain, w1. split; [ reflexivity | ].
      split; [ exact Hout1 | ]. left. auto. }
  destruct (PyStr.is_empty session_context) eqn:Hempty.
  { unfold ret. exists result_plain, w1. split; [ reflexivity | ].
    split; [ exact Hout1 | ]. left. auto. }
  destruct (should_suggest_effects config session_id session_context w1)
    as (b & w2 & Hdec & Hout2 & Hkeep & Hcalled & Hcalls2).
  unfold bind at 1. rewrite Hdec.
  destruct b; cbn [negb]; cbv iota.
  - destruct (generate_contextual_suggestions_effects session_context w2)
      as (text & w3 & Hgen & Htext & Hw3).
    unfold bind at 1. rewrite Hgen, Htext. cbn [negb]; cbv iota. unfold ret.
    exists (result_suggestion text), w3. split; [ reflexivity | ].
    split; [ rewrite Hw3; simpl; congruence | ].
    right. exists session_context, text.
    split; [ reflexivity | ].
    split; [ now apply is_empty_false | ].
    split; [ now apply is_empty_false | ].
    split; [ reflexivity | ].
    rewrite Hw3. simpl. rewrite (Hcalled eq_refl), Hcalls1.
    now rewrite <- app_assoc.
  - unfold bind at 1. unfold logger at 1. unfold ret.
    eexists; eexists. split; [ reflexivity | ]. simpl.
    split; [ congruence | ]. left.
    split; [ reflexivity | ]. split; [ rewrite (Hkeep eq_refl); exact Hfile1 | ].
    destruct Hcalls2 as [Hc | Hc]; [ left; congruence | right ].
    exists session_context. split; [ reflexivity | congruence ].
Qed.

(** X1: the third gate.  While the cooldown runs, [should_suggest] returns
    [False] without calling the classifier and without touching the cooldown
    file, whatever the transcript. *)
Theorem should_suggest_in_cooldown
  (config : Config) (session_id session_context : string) (w : World) :
  fst (is_in_cooldown config session_id w) = Returned true ->
  exists w',
    should_suggest config session_id session_context w = (Returned false, w')
    /\ remote_calls w' = remote_calls w
    /\ cooldown_file w' = cooldown_file w.
Proof.
  intros Hcool. apply cooling_verdict in Hcool.
  destruct (should_suggest_closed config session_id session_context w)
    as (w' & Hrun & Hcalls & Hfile & _).
  - right; right. exact Hcool.
  - exists w'. auto.
Qed.

(** X2: the cooldown file is written on a positive decision only: a call of
    [should_suggest] that returns [False] -- by a gate, by a reply other than
    YES or by a low fallback score -- leaves the file as it was. *)
Theorem should_suggest_negative_keeps_cooldown
  (config : Config) (session_id session_context : string) (w w' : World) :
  should_suggest config session_id session_context w = (Returned false, w') ->
  cooldown_file w' = cooldown_file w.
Proof.
  intros Hrun.
  destruct (should_suggest_effects config session_id session_context w)
    as (b & w2 & Hrun2 & _ & Hkeep & _).
  pose proof (eq_trans (eq_sym Hrun) Hrun2) as Heq.
  injection Heq as Hb Hw. subst b w2. now apply Hkeep.
Qed.

(** X3: one call of [should_suggest] makes at most one remote call: none, or
    one call of the Flash-Lite model whose prompt embeds the whole
    transcript; a positive verdict always follows such a call, and a failed
    call is not retried. *)
Theorem should_suggest_call_budget
  (config : Config) (session_id session_context : string) (w : World) :
  let run := should_suggest config session_id session_context w in
  let prompt :=
    decision_prompt (analyze_session_context session_context) session_context in
  (remote_calls (snd run) = remote_calls w
   \/ remote_calls (snd run)
      = (remote_calls w ++ [("gemini-2.5-flash-lite", prompt)])%list)
  /\ (fst run = Returned true ->
      remote_calls (snd run)
      = (remote_calls w ++ [("gemini-2.5-flash-lite", prompt)])%list)
  /\ PyStr.contains session_context prompt = true.
Proof.
  intros run prompt.
  destruct (should_suggest_effects config session_id session_context w)
    as (b & w' & Hrun & _ & _ & Hcalled & Hcalls).
  subst run prompt. rewrite Hrun. cbn [fst snd].
  unfold decision_call in Hcalled, Hcalls.
  split; [ exact Hcalls | split ].
  - intros H. injection H as Hb. apply Hcalled. exact Hb.
  - apply decision_prompt_embeds.
Qed.

(** X9: [generate_contextual_suggestions] makes exactly one remote call, of
    the Flash model, with a prompt that embeds the whole transcript; it reads
    no clock and leaves the cooldown file and standard output alone. *)
Theorem generate_contextual_suggestions_single_call
  (session_context : string) (w : World) :
  let run := generate_contextual_suggestions session_context w in
  let prompt :=
    _build_suggestion_prompt session_context
      (analyze_session_components session_context) in
  remote_calls (snd run) = (remote_calls w ++ [("gemini-2.5-flash", prompt)])%list
  /\ PyStr.contains session_context prompt = true
  /\ erase_log (snd run)
     = erase_log (set_remote_calls
                    (remote_calls w ++ [("gemini-2.5-flash", prompt)]) w).
Proof.
  intros run prompt.
  destruct (generate_contextual_suggestions_effects session_context w)
    as (text & w' & Hrun & _ & Hw').
  subst run prompt. rewrite Hrun. cbn [fst snd].
  unfold suggestion_call in Hw'.
  split; [ | split ].
  - rewrite Hw'. reflexivity.
  - apply suggestion_prompt_embeds.
  - rewrite Hw'. reflexivity.
Qed.


(** X13: an empty transcript file and one that cannot be read are treated
    alike: both give the dict with [block] alone and leave the world as it
    was, log lines apart. *)
Theorem empty_and_unreadable_transcripts_alike
  (config : Config) (session_id empty_path bad_path : string) (e : exn) (w : World) :
  files w empty_path = Returned EmptyString ->
  files w bad_path = Raised e ->
  let run_empty := process_stop_hook config session_id empty_path w in
  let run_bad := process_stop_hook config session_id bad_path w in
  fst run_empty = Returned result_plain
  /\ fst run_bad = Returned result_plain
  /\ erase_log (snd run_empty) = erase_log w
  /\ erase_log (snd run_bad) = erase_log w.
Proof.
  intros Hempty Hbad run_empty run_bad. subst run_empty run_bad.
  unfold process_stop_hook, read_transcript. unfold_effects.
  cbn [files set_log]. rewrite Hempty, Hbad. simpl. repeat split; reflexivity.
Qed.


(** X15: with logging set up and a transcript path given, a missing or empty
    API key makes [main] print the dict whose [error] is the message of the
    ValueError, prefixed; the transcript is not read, no remote call is made
    and the cooldown file and the clock are not touched. *)
Theorem main_missing_api_key
  (environ : string -> option string) (argv : list string) (w : World) :
  transcript_path_of environ argv <> EmptyString ->
  startup_error w = None ->
  get (gemini_api_key (loaded_config w)) EmptyString = EmptyString ->
  main environ argv w
  = (Returned tt,
     set_log
       (log w ++
        [(ERROR,
          HookHandlerFailed "GEMINI_API_KEY not found in config or environment")])
       (set_stdout
          (stdout w ++
           [result_error
              "Hook handler failed: GEMINI_API_KEY not found in config or environment"])
          w)).
Proof.
  intros Hpath Hstart Hkey. apply is_empty_false in Hpath.
  unfold main, main_body, try_except. cbv zeta. rewrite Hpath.
  unfold CCGuide_init, setup_logging, load_config, setup_gemini. unfold_effects.
  rewrite Hstart. simpl. rewrite Hkey. reflexivity.
Qed.

(** X16: the dict [main] prints has one of three shapes: [block] alone;
    [block] with a non-empty [context] and the fixed [reason]; or [block]
    with [error].  It never holds both a context and an error, and one run
    makes at most two remote calls. *)
Theorem main_output_shapes
  (environ : string -> option string) (argv : list string) (w : World) :
  exists r w',
    main environ argv w = (Returned tt, w')
    /\ stdout w' = (stdout w ++ [r])%list
    /\ (r = result_plain
        \/ (exists text, text <> EmptyString /\ r = result_suggestion text)
        \/ (exists msg, r = result_error msg))
    /\ (List.length (remote_calls w') <= List.length (remote_calls w) + 2)%nat.
Proof.
  unfold main, try_except, main_body. cbv zeta.
  destruct (PyStr.is_empty (transcript_path_of environ argv)).
  { unfold print_json. eexists; eexists. split; [ reflexivity | ]. simpl.
    split; [ reflexivity | ]. split; [ | lia ]. right; right. now eexists. }
  destruct (CCGuide_init_effects w) as ([config | e] & w1 & Hinit & Hsame).
  2:{ unfold bind at 1. rewrite Hinit. unfold_effects.
      eexists; eexists. split; [ reflexivity | ]. simpl.
      apply (f_equal stdout) in Hsame as Hout.
      apply (f_equal remote_calls) in Hsame as Hcalls. simpl in Hout, Hcalls.
      split; [ now rewrite Hout | ]. split; [ | rewrite Hcalls; lia ].
      right; right. now eexists. }
  unfold bind at 1. rewrite Hinit.
  match goal with |- context [process_stop_hook config ?s ?p] =>
    destruct (process_stop_hook_cases config s p w1) as (r & w2 & Hrun & Hout & Hcases)
  end.
  unfold bind at 1. rewrite Hrun. unfold print_json.
  apply (f_equal stdout) in Hsame as Hout1.
  apply (f_equal remote_calls) in Hsame as Hcalls1. simpl in Hout1, Hcalls1.
  eexists; eexists. split; [ reflexivity | ]. cbn [stdout remote_calls set_stdout].
  split; [ now rewrite Hout, Hout1 | ].
  destruct Hcases as [(-> & _ & Hcalls) | (ctx & text & _ & _ & Htext & -> & Hcalls)].
  - split; [ now left | ].
    destruct Hcalls as [-> | (ctx & _ & ->)]; rewrite ?length_app, Hcalls1; simpl; lia.
  - split; [ right; left; now exists text | ].
    rewrite Hcalls, length_app, Hcalls1. simpl. lia.
Qed.

(** X4: what the fallback heuristic asks for.  Code alone is not enough: the
    fallback suggests exactly when the transcript has code and one more
    signal (length over 1000, an error word, a complexity word), or has all
    three of those signals without code. *)
Theorem fallback_needs_two_signals (analysis : Analysis) (w : World) :
  let long := 1000 <? a_length analysis in
  let complex := 0 <? a_complexity_indicators analysis in
  fst (_fallback_decision analysis w)
  = Returned ((a_has_code analysis && (long || a_has_errors analysis || complex))
              || (long && a_has_errors analysis && complex))%bool.
Proof.
  intros long complex.
  destruct (_fallback_decision_run analysis w) as (w' & Hrun & _).
  rewrite Hrun. simpl. f_equal.
  unfold analysis_score, fallback_score. fold long complex.
  destruct (a_has_code analysis), long, (a_has_errors analysis), complex; reflexivity.
Qed.

End Effects.

(** ** Truncation of the context *)

Section SliceFacts.

Lemma length_take (n : nat) (s : string) :
  String.length (PySlice.take n s) = Nat.min n (String.length s).
Proof.
  revert s. induction n as [| n IH]; intros [| c s]; simpl; auto.
Qed.

Lemma length_drop (n : nat) (s : string) :
  String.length (PySlice.drop n s) = (String.length s - n)%nat.
Proof.
  revert s. induction n as [| n IH]; intros [| c s]; simpl; auto.
Qed.

Lemma take_drop (n : nat) (s : string) :
  PySlice.take n s ++ PySlice.drop n s = s.
Proof.
  revert s. induction n as [| n IH]; intros [| c s]; simpl; auto.
  now rewrite IH.
Qed.

Lemma len_append (a b : string) : PyStr.len (a ++ b) = PyStr.len a + PyStr.len b.
Proof. unfold PyStr.len. rewrite length_append. lia. Qed.

Lemma len_take (n : nat) (s : string) :
  PyStr.len (PySlice.take n s) = Z.min (Z.of_nat n) (PyStr.len s).
Proof. unfold PyStr.len. rewrite length_take. lia. Qed.

Lemma len_drop (n : nat) (s : string) :
  PyStr.len (PySlice.drop n s) = Z.max 0 (PyStr.len s - Z.of_nat n).
Proof. unfold PyStr.len. rewrite length_drop. lia. Qed.

Lemma len_nonneg (s : string) : 0 <= PyStr.len s.
Proof. unfold PyStr.len. lia. Qed.

(** X10: [_prepare_context_for_ai] with a limit above 2000 (the default is
    15000).  A context within the limit is returned as it is.  A longer one
    becomes its first 2000 characters, the marker, and its last
    [max_chars - 2000] characters: the result is 42 characters longer than
    the limit. *)
Theorem prepare_context_above_2000 (context : string) (max_chars : Z) :
  2000 < max_chars ->
  (PyStr.len context <= max_chars ->
   _prepare_context_for_ai context max_chars = context)
  /\ (max_chars < PyStr.len context ->
      let cut := Z.to_nat (PyStr.len context - (max_chars - 2000)) in
      _prepare_context_for_ai context max_chars
      = PySlice.take 2000 context ++ truncation_marker ++ PySlice.drop cut context
      /\ PyStr.len (PySlice.take 2000 context) = 2000
      /\ PyStr.len (PySlice.drop cut context) = max_chars - 2000
      /\ PyStr.len (_prepare_context_for_ai context max_chars) = max_chars + 42).
Proof.
  intros Hmax. unfold _prepare_context_for_ai. split.
  - intros Hshort. apply Z.leb_le in Hshort. now rewrite Hshort.
  - intros Hlong. cbv zeta.
    set (cut := Z.to_nat (PyStr.len context - (max_chars - 2000))).
    replace (PyStr.len context <=? max_chars) with false
      by (symmetry; apply Z.leb_gt; exact Hlong). unfold PySlice.upto, PySlice.from, PySlice.position.
    replace (2000 <? 0) with false by reflexivity.
    replace (- (max_chars - 2000) <? 0) with true
      by (symmetry; apply Z.ltb_lt; lia).
    replace (Z.to_nat (Z.min 2000 (PyStr.len context))) with 2000%nat by lia.
    replace (Z.to_nat (Z.max (PyStr.len context + - (max_chars - 2000)) 0)) with cut
      by (unfold cut; lia).
    assert (Htake : PyStr.len (PySlice.take 2000 context) = 2000)
      by (rewrite len_take; lia).
    assert (Hdrop : PyStr.len (PySlice.drop cut context) = max_chars - 2000)
      by (rewrite len_drop; unfold cut; lia).
    split; [ reflexivity | ]. split; [ exact Htake | ]. split; [ exact Hdrop | ].
    rewrite !len_append, Htake, Hdrop.
    change (PyStr.len truncation_marker) with 42. lia.
Qed.

(** X11: [_prepare_context_for_ai] with a limit between 0 and 2000 shortens
    nothing: whenever it takes the truncating branch the result is longer
    than the context it was given, and at the limit 2000 the part kept after
    the marker is the whole context. *)
Theorem prepare_context_up_to_2000 (context : string) (max_chars : Z) :
  0 <= max_chars <= 2000 ->
  max_chars < PyStr.len context ->
  PyStr.len context < PyStr.len (_prepare_context_for_ai context max_chars)
  /\ (max_chars = 2000 ->
      _prepare_context_for_ai context max_chars
      = PySlice.take 2000 context ++ truncation_marker ++ context).
Proof.
  intros Hmax Hlong. unfold _prepare_context_for_ai.
  replace (PyStr.len context <=? max_chars) with false
    by (symmetry; apply Z.leb_gt; exact Hlong).
  cbv zeta. unfold PySlice.upto, PySlice.from, PySlice.position.
  replace (2000 <? 0) with false by reflexivity.
  replace (- (max_chars - 2000) <? 0) with false
    by (symmetry; apply Z.ltb_ge; lia).
  pose proof (len_nonneg context) as Hlen.
  split.
  - rewrite !len_append, len_take, len_drop.
    change (PyStr.len truncation_marker) with 42. lia.
  - intros ->. simpl Z.sub. simpl Z.opp.
    replace (Z.to_nat (Z.min 0 (PyStr.len context))) with 0%nat by lia.
    replace (Z.to_nat (Z.min 2000 (PyStr.len context))) with 2000%nat by lia.
    reflexivity.
Qed.

End SliceFacts.

(** ** The command line *)

Section CLIFacts.

Variable config_path : string.

Ltac unfold_cli :=
  unfold CLI.load_config, CLI.save_config, CLI.bind, CLI.ret, CLI.print,
    CLI.sys_exit in *.

Lemma bind_exit {A B : Type} (m : CLI.C A) (k : A -> CLI.C B)
  (st st' : CLI.State) (code : Z) :
  m st = (CLI.Exit code, st') -> CLI.bind m k st = (CLI.Exit code, st').
Proof. intros H. unfold CLI.bind. now rewrite H. Qed.

Lemma bind_done {A B : Type} (m : CLI.C A) (k : A -> CLI.C B)
  (st st' : CLI.State) (a : A) :
  m st = (CLI.Done a, st') -> CLI.bind m k st = k a st'.
Proof. intros H. unfold CLI.bind. now rewrite H. Qed.

Lemma load_config_holds (st : CLI.State) (config : Config) :
  CLI.file st = CLI.Holds config ->
  CLI.load_config config_path st = (CLI.Done config, st).
Proof. intros H. unfold CLI.load_config. now rewrite H. Qed.

(** X18: every command that changes the configuration needs a configuration
    file that parses: with the file missing or corrupt, enable, disable,
    toggle and config all leave through [sys.exit(1)] and write nothing. *)
Theorem cli_commands_need_config_file
  (st : CLI.State) (api_key : option string) (cooldown min_length : option Z) :
  CLI.file st = CLI.Missing \/ (exists e, CLI.file st = CLI.Corrupt e) ->
  forall command,
    In command [ CLI.enable config_path; CLI.disable config_path;
                 CLI.toggle config_path;
                 CLI.configure config_path api_key cooldown min_length ] ->
    fst (command st) = CLI.Exit 1
    /\ CLI.file (snd (command st)) = CLI.file st.
Proof.
  intros Hfile command Hcommand.
  assert (Hload : exists st',
            CLI.load_config config_path st = (CLI.Exit 1, st')
            /\ CLI.file st' = CLI.file st).
  { unfold_cli. destruct Hfile as [-> | (e & ->)]; simpl; eauto. }
  destruct Hload as (st' & Hload & Hsame).
  simpl in Hcommand.
  destruct Hcommand as [<- | [<- | [<- | [<- | []]]]];
    unfold CLI.enable, CLI.disable, CLI.toggle, CLI.configure;
    rewrite (bind_exit _ _ _ _ _ Hload); simpl; auto.
Qed.

(** X19: [configure] validates what it stores.  From a configuration file that
    parses, and unless a write fails after the file was opened (the command
    then leaves through [sys.exit(1)] and the file holds what the failed
    write left), the file afterwards still parses, [enable_suggestions] is
    unchanged, a cooldown or a minimum length that was not negative is not
    negative afterwards, and an API key differing from the old one is a
    stripped, non-empty string.  When no argument is acceptable nothing is
    written and the command returns normally. *)
Theorem configure_validates
  (st : CLI.State) (config : Config)
  (api_key : option string) (cooldown min_length : option Z) :
  CLI.file st = CLI.Holds config ->
  let run := CLI.configure config_path api_key cooldown min_length st in
  ((exists config',
      CLI.file (snd run) = CLI.Holds config'
      /\ enable_suggestions config' = enable_suggestions config
      /\ (not_negative (suggestion_cooldown config) ->
          not_negative (suggestion_cooldown config'))
      /\ (not_negative (min_session_length config) ->
          not_negative (min_session_length config'))
      /\ (gemini_api_key config' = gemini_api_key config
          \/ exists raw,
               api_key = Some raw
               /\ gemini_api_key config' = Some (PyStr.strip raw)
               /\ PyStr.strip raw <> EmptyString))
   \/ (exists e leftover,
         CLI.save_error st = Some (CLI.AfterOpen e leftover)
         /\ fst run = CLI.Exit 1
         /\ CLI.file (snd run) = leftover))
  /\ (PyStr.is_empty (PyStr.strip (get api_key EmptyString)) = true ->
      get cooldown (-1) < 0 -> get min_length (-1) < 0 ->
      fst run = CLI.Done tt /\ CLI.file (snd run) = CLI.file st).
Proof.
  intros Hfile run. subst run. unfold CLI.configure.
  rewrite (bind_done _ _ _ _ _ (load_config_holds st config Hfile)).
  cbv zeta.
  destruct api_key as [raw |]; [ destruct (PyStr.is_empty (PyStr.strip raw)) eqn:Hraw | ];
    (destruct cooldown as [seconds |]; [ destruct (0 <=? seconds) eqn:Hsec | ]);
    (destruct min_length as [chars |]; [ destruct (0 <=? chars) eqn:Hchars | ]);
    cbn [negb get]; unfold_cli; cbn [CLI.file CLI.save_error CLI.printed fst snd];
    destruct (CLI.save_error st) as [[e | e leftover] |];
    cbn [CLI.file CLI.save_error CLI.printed fst snd];
    (split;
     [ first
         [ solve
             [ left; eexists; split; [ first [ exact Hfile | reflexivity ] | ];
               split; [ reflexivity | ];
               split; [ try (intros _ n Hn; injection Hn as <-; now apply Z.leb_le);
                        auto | ];
               split; [ try (intros _ n Hn; injection Hn as <-; now apply Z.leb_le);
                        auto | ];
               first [ left; reflexivity
                     | right; exists raw; repeat split; try reflexivity;
                       now apply is_empty_false ] ]
         | right; exists e, leftover; split; [ reflexivity | ]; split; reflexivity ]
     | intros H1 H2 H3; try discriminate H1;
       try (rewrite Hraw in H1; discriminate H1);
       try (apply Z.leb_le in Hsec; simpl in H2; lia);
       try (apply Z.leb_le in Hchars; simpl in H3; lia);
       split; reflexivity ]).
Qed.

Lemma toggle_run (st : CLI.State) (config : Config) :
  CLI.file st = CLI.Holds config ->
  CLI.save_error st = None ->
  exists st',
    CLI.toggle config_path st = (CLI.Done tt, st')
    /\ CLI.save_error st' = None
    /\ CLI.file st'
       = CLI.Holds (CLI.set_enable (negb (get (enable_suggestions config) true)) config).
Proof.
  intros Hfile Hsave. unfold CLI.toggle.
  rewrite (bind_done _ _ _ _ _ (load_config_holds st config Hfile)). cbv zeta.
  destruct (get (enable_suggestions config) true) eqn:Hen.
  - unfold CLI.disable.
    rewrite (bind_done _ _ _ _ _ (load_config_holds st config Hfile)).
    rewrite Hen. cbn [negb]. unfold_cli. rewrite Hsave.
    eexists. split; [ reflexivity | ]. split; reflexivity.
  - unfold CLI.enable.
    rewrite (bind_done _ _ _ _ _ (load_config_holds st config Hfile)).
    assert (Hoff : get (enable_suggestions config) false = false).
    { destruct (enable_suggestions config) as [[|] |]; try discriminate Hen; reflexivity. }
    rewrite Hoff. unfold_cli. rewrite Hsave.
    destruct (CLI.api_key_blank _);
      (eexists; split; [ reflexivity | ]; split; reflexivity).
Qed.

(** X20: [toggle] flips what the hook will see.  From a configuration file
    that parses and can be written, one toggle inverts the effective value of
    [enable_suggestions] (an absent key counts as enabled) and changes no
    other key; two toggles give back the effective value, and the very same
    dict when the key was present. *)
Theorem toggle_flips_and_toggles_back (st : CLI.State) (config : Config) :
  CLI.file st = CLI.Holds config ->
  CLI.save_error st = None ->
  let once := snd (CLI.toggle config_path st) in
  let twice := snd (CLI.toggle config_path once) in
  exists config1 config2,
    CLI.file once = CLI.Holds config1
    /\ CLI.file twice = CLI.Holds config2
    /\ get (enable_suggestions config1) true = negb (get (enable_suggestions config) true)
    /\ get (enable_suggestions config2) true = get (enable_suggestions config) true
    /\ gemini_api_key config1 = gemini_api_key config
    /\ min_session_length config1 = min_session_length config
    /\ suggestion_cooldown config1 = suggestion_cooldown config
    /\ (enable_suggestions config <> None -> config2 = config).
Proof.
  intros Hfile Hsave once twice.
  destruct (toggle_run st config Hfile Hsave) as (st1 & Hrun1 & Hsave1 & Hfile1).
  destruct (toggle_run st1 _ Hfile1 Hsave1) as (st2 & Hrun2 & _ & Hfile2).
  subst twice once. rewrite Hrun1. cbn [snd]. rewrite Hrun2. cbn [snd].
  eexists; eexists. split; [ exact Hfile1 | ]. split; [ exact Hfile2 | ].
  cbn [CLI.set_enable enable_suggestions get].
  split; [ reflexivity | ]. split; [ apply negb_involutive | ].
  do 3 (split; [ reflexivity | ]).
  intros Hpresent. rewrite negb_involutive.
  destruct config as [key [en |] len cool]; [ reflexivity | now contradiction Hpresent ].
Qed.

End CLIFacts.

(** ** The configuration, from the command line to the hook *)

Section ConfigFacts.

Context {FL : PyFloat}.

Variable config_path : string.

(** X17: the API key the hook starts with.  A key in the configuration file,
    even the empty string, takes the place of the environment variable; the
    variable counts only when the file has no key or does not load.  Building
    the assistant raises the ValueError exactly when the key so chosen is
    missing or empty, and otherwise returns the merged dict, in which the
    three thresholds of the decision engine are always defined. *)
Theorem hook_api_key_precedence
  (env_api_key : option string) (file : option Config) (w : World) :
  loaded_config w = load_config_value env_api_key file ->
  startup_error w = None ->
  let chosen :=
    match file with
    | Some user_config => or_else (gemini_api_key user_config) env_api_key
    | None => env_api_key
    end in
  gemini_api_key (loaded_config w) = chosen
  /\ (get chosen EmptyString = EmptyString ->
      fst (CCGuide_init w)
      = Raised "GEMINI_API_KEY not found in config or environment")
  /\ (get chosen EmptyString <> EmptyString ->
      fst (CCGuide_init w) = Returned (load_config_value env_api_key file))
  /\ enable_suggestions (loaded_config w) <> None
  /\ min_session_length (loaded_config w) <> None
  /\ suggestion_cooldown (loaded_config w) <> None.
Proof.
  intros Hloaded Hstart chosen.
  assert (Hkey : gemini_api_key (loaded_config w) = chosen).
  { rewrite Hloaded. subst chosen. destruct file as [user |]; reflexivity. }
  split; [ exact Hkey | ].
  unfold CCGuide_init, setup_logging, load_config, setup_gemini.
  unfold bind, ret, raise, logger. rewrite Hstart, Hkey.
  split; [ | split ].
  - intros Hblank. rewrite Hblank. reflexivity.
  - intros Hset. apply is_empty_false in Hset. rewrite Hset. simpl.
    now rewrite Hloaded.
  - rewrite Hloaded. unfold load_config_value, dict_update, hook_defaults, or_else.
    destruct file as [[key [en |] [len |] [cool |]] |]; simpl;
      repeat split; discriminate.
Qed.

(** X21: the switch of the command line reaches the hook.  After [disable]
    returns normally, the dict the hook loads from the file closes the first
    gate: [should_suggest] returns [False] and only logs.  After [enable]
    returns normally, the loaded dict has suggestions enabled. *)
Theorem cli_switch_reaches_the_hook (st : CLI.State) (config : Config) :
  CLI.file st = CLI.Holds config ->
  (fst (CLI.disable config_path st) = CLI.Done tt ->
   exists config',
     CLI.file (snd (CLI.disable config_path st)) = CLI.Holds config'
     /\ forall env_api_key session_id session_context (w : World),
          should_suggest (load_config_value env_api_key (Some config'))
                         session_id session_context w
          = (Returned false, set_log (log w ++ [(INFO, SuggestionsDisabled)]) w))
  /\ (fst (CLI.enable config_path st) = CLI.Done tt ->
      exists config',
        CLI.file (snd (CLI.enable config_path st)) = CLI.Holds config'
        /\ forall env_api_key,
             get (enable_suggestions (load_config_value env_api_key (Some config')))
                 true = true).
Proof.
  intros Hfile. split.
  - unfold CLI.disable.
    rewrite (bind_done _ _ _ _ _ (load_config_holds config_path st config Hfile)).
    destruct (get (enable_suggestions config) true) eqn:Hen; cbn [negb].
    + unfold CLI.save_config, CLI.bind, CLI.print, CLI.sys_exit.
      destruct (CLI.save_error st) as [[e | e leftover] |]; simpl;
        [ discriminate | discriminate | ].
      intros _. eexists. split; [ reflexivity | ]. reflexivity.
    + unfold CLI.print. simpl. intros _. exists config. split; [ exact Hfile | ].
      intros env_api_key session_id session_context w.
      unfold should_suggest, load_config_value, dict_update, or_else. simpl.
      destruct (enable_suggestions config) as [[|] |]; try discriminate Hen.
      reflexivity.
  - unfold CLI.enable.
    rewrite (bind_done _ _ _ _ _ (load_config_holds config_path st config Hfile)).
    destruct (get (enable_suggestions config) false) eqn:Hen.
    + unfold CLI.print. simpl. intros _. exists config. split; [ exact Hfile | ].
      intros env_api_key. unfold load_config_value, dict_update, or_else. simpl.
      destruct (enable_suggestions config) as [[|] |]; try discriminate Hen.
      reflexivity.
    + unfold CLI.save_config, CLI.bind, CLI.print, CLI.sys_exit, CLI.ret.
      destruct (CLI.save_error st) as [[e | e leftover] |]; simpl;
        [ discriminate | discriminate | ].
      destruct (CLI.api_key_blank _); simpl; intros _;
        (eexists; split; [ reflexivity | ]; reflexivity).
Qed.

End ConfigFacts.

(** * Examples *)

Example classify_empty : _classify_session_type EmptyString = "general_development".
Proof. reflexivity. Qed.

Example classify_first_rule_wins :
  _classify_session_type "Fix the bug in the SETUP script and add a test"
  = "project_setup".
Proof. vm_compute. reflexivity. Qed.

Example classify_later_rule :
  _classify_session_type "Release the coverage report" = "testing".
Proof. vm_compute. reflexivity. Qed.

Example coding_transcript_analysis :
  analyze_session_context coding_transcript
  = {| a_length := 1200; a_has_code := true; a_has_errors := true;
       a_has_testing := false; a_has_git := false;
       a_complexity_indicators := 0 |}.
Proof. vm_compute. reflexivity. Qed.

Example short_transcript_no_call :
  should_suggest default_config "s1" fifty_a (fresh_world (Returned "YES"))
  = (Returned false,
     set_log [(INFO, SessionTooShort)] (fresh_world (Returned "YES"))).
Proof. vm_compute. reflexivity. Qed.

Example reply_no :
  fst (should_suggest default_config "s1" coding_transcript
         (fresh_world (Returned "NO"))) = Returned false.
Proof. vm_compute. reflexivity. Qed.

Example reply_yes_please :
  fst (should_suggest default_config "s1" coding_transcript
         (fresh_world (Returned "yes please"))) = Returned false.
Proof. vm_compute. reflexivity. Qed.

Example reply_yes_lowercase_padded :
  fst (should_suggest default_config "s1" coding_transcript
         (fresh_world (Returned "  yes
"))) = Returned true.
Proof. vm_compute. reflexivity. Qed.

Example fallback_scenario :
  let run := should_suggest default_config "s1" coding_transcript
               (fresh_world (Raised "503 unavailable")) in
  fst run = Returned true
  /\ cooldown_file (snd run) = Content "1700000000".
Proof. vm_compute. split; reflexivity. Qed.

Example cooldown_blocks_second_call :
  let w1 := snd (should_suggest default_config "s1" coding_transcript
                   (fresh_world (Returned "YES"))) in
  should_suggest default_config "s2" coding_transcript w1
  = (Returned false, set_ticks 2 (set_log (log w1 ++ [(INFO, @InCooldown whole_seconds 20)]) w1)).
Proof. vm_compute. reflexivity. Qed.

Example unparsable_cooldown_file :
  fst (is_in_cooldown default_config "s1"
         (world_of (Content "yesterday") None (Returned "YES") (Returned "## Tips")))
  = Returned false.
Proof. vm_compute. reflexivity. Qed.

Example missing_api_key :
  stdout (snd (main (fun _ => None) ["hook"; "s1"; "transcript.txt"]
                 (set_log [] (@Build_World whole_seconds (fun _ => 0) 0%nat Absent None None
                    (fun _ => Raised "No such file or directory")
                    (fun _ _ _ => Raised "unreachable") [] None
                    {| gemini_api_key := None; enable_suggestions := None;
                       min_session_length := None; suggestion_cooldown := None |}
                    [] []))))
  = [ result_error
        "Hook handler failed: GEMINI_API_KEY not found in config or environment" ].
Proof. vm_compute. reflexivity. Qed.

Example main_prints_suggestion :
  stdout (snd (main (fun _ => None) ["hook"; "s1"; "transcript.txt"]
                 (fresh_world (Returned "YES"))))
  = [ {| block := false;
         context := Some "## Tips\n\n---\n*Session Analysis: bug_fixing* *| Languages: python*";
         reason := Some "CCGuide suggestions available";
         error := None |} ].
Proof. vm_compute. reflexivity. Qed.

(** ** The claims at concrete inputs *)

Lemma should_suggest_disabled_or_short_witness :
  (get (enable_suggestions default_config) true = false
   \/ PyStr.len fifty_a < get (min_session_length default_config) 100)
  /\ (exists ev,
        should_suggest default_config "s1" fifty_a w_yes
        = (Returned false, set_log (log w_yes ++ [(INFO, ev)]) w_yes))
  /\ remote_calls (snd (should_suggest default_config "s1" fifty_a w_yes))
     = remote_calls w_yes.
Proof.
  assert (H : get (enable_suggestions default_config) true = false
              \/ PyStr.len fifty_a < get (min_session_length default_config) 100)
    by (right; vm_compute; reflexivity).
  split; [ exact H | ].
  exact (@should_suggest_disabled_or_short whole_seconds default_config "s1" fifty_a w_yes H).
Defined.





Lemma process_stop_hook_suggests_witness :
  let w0 := set_log (log w_yes ++ [(INFO, ProcessingStopHook "s1")]) w_yes in
  let w_read := snd (read_transcript "transcript.txt" w0) in
  let w_decided := snd (should_suggest default_config "s1" coding_transcript w_read) in
  let w_final := snd (generate_contextual_suggestions coding_transcript w_decided) in
  let text := "## Tips\n\n---\n*Session Analysis: bug_fixing* *| Languages: python*" in
  read_transcript "transcript.txt" w0 = (Returned coding_transcript, w_read)
  /\ coding_transcript <> EmptyString
  /\ should_suggest default_config "s1" coding_transcript w_read
     = (Returned true, w_decided)
  /\ generate_contextual_suggestions coding_transcript w_decided
     = (Returned text, w_final)
  /\ process_stop_hook default_config "s1" "transcript.txt" w_yes
     = (Returned {| block := false;
                    context := Some text;
                    reason := Some "CCGuide suggestions available";
                    error := None |}, w_final).
Proof.
  intros w0 w_read w_decided w_final text.
  assert (H1 : read_transcript "transcript.txt" w0
               = (Returned coding_transcript, w_read)) by (vm_compute; reflexivity).
  assert (H2 : coding_transcript <> EmptyString) by (vm_compute; discriminate).
  assert (H3 : should_suggest default_config "s1" coding_transcript w_read
               = (Returned true, w_decided)) by (vm_compute; reflexivity).
  assert (H4 : generate_contextual_suggestions coding_transcript w_decided
               = (Returned text, w_final)) by (vm_compute; reflexivity).
  do 4 (split; [ assumption | ]).
  exact (@process_stop_hook_suggests whole_seconds default_config "s1" "transcript.txt" coding_transcript text
           w_yes w_read w_decided w_final H1 H2 H3 H4).
Defined.

(** C9 as stated fails on the reason: with the decision stage returning
    [True], the dict returned holds the reason CCGuide suggestions available,
    which is not the string suggestions available. *)
Lemma reason_is_not_suggestions_available :
  let w0 := set_log (log w_yes ++ [(INFO, ProcessingStopHook "s1")]) w_yes in
  let w_read := snd (read_transcript "transcript.txt" w0) in
  fst (should_suggest default_config "s1" coding_transcript w_read) = Returned true
  /\ exists r,
       fst (process_stop_hook default_config "s1" "transcript.txt" w_yes) = Returned r
       /\ reason r = Some "CCGuide suggestions available"
       /\ reason r <> Some "suggestions available".
Proof.
  vm_compute. split; [ reflexivity | ].
  eexists. split; [ reflexivity | ]. split; [ reflexivity | discriminate ].
Qed.

(** ** The further properties at concrete inputs *)

Example select_statement_is_not_sql :
  _detect_languages "SELECT name FROM users WHERE id = 1" = [].
Proof. vm_compute. reflexivity. Qed.

Example complexity_count_is_not_monotone :
  a_complexity_indicators (analyze_session_context "todo") = 1
  /\ a_complexity_indicators (analyze_session_context ("todo" ++ "s")) = 0.
Proof. vm_compute. split; reflexivity. Qed.

Example configure_run :
  CLI.configure "config.json" (Some "  key-1 ") (Some (-5)) (Some 50) cli_ready
  = (CLI.Done tt,
     {| CLI.file :=
          CLI.Holds {| gemini_api_key := Some "key-1";
                       enable_suggestions := Some true;
                       min_session_length := Some 50;
                       suggestion_cooldown := Some 300 |};
        CLI.save_error := None;
        CLI.printed :=
          [ "✅ API key updated";
            "❌ Cooldown must be >= 0";
            "✅ Minimum session length set to 50 characters";
            "✅ Configuration saved successfully" ] |}).
Proof. vm_compute. reflexivity. Qed.

Example failed_write_loses_the_configuration :
  let st := {| CLI.file := CLI.Holds default_config;
               CLI.save_error :=
                 Some (CLI.AfterOpen "No space left on device"
                         (CLI.Corrupt "Expecting value: line 1 column 1 (char 0)"));
               CLI.printed := [] |} in
  fst (CLI.disable "config.json" st) = CLI.Exit 1
  /\ CLI.file (snd (CLI.disable "config.json" st))
     = CLI.Corrupt "Expecting value: line 1 column 1 (char 0)"
  /\ fst (CLI.enable "config.json" (snd (CLI.disable "config.json" st))) = CLI.Exit 1.
Proof. vm_compute. split; [ | split ]; reflexivity. Qed.

Lemma should_suggest_in_cooldown_witness :
  fst (is_in_cooldown default_config "s1" w_cooling) = Returned true
  /\ exists w',
       should_suggest default_config "s1" coding_transcript w_cooling
       = (Returned false, w')
       /\ remote_calls w' = remote_calls w_cooling
       /\ cooldown_file w' = cooldown_file w_cooling.
Proof.
  assert (H : fst (is_in_cooldown default_config "s1" w_cooling) = Returned true)
    by (vm_compute; reflexivity).
  split; [ exact H | ].
  exact (@should_suggest_in_cooldown whole_seconds default_config "s1"
           coding_transcript w_cooling H).
Defined.

Lemma should_suggest_negative_keeps_cooldown_witness :
  let w' := snd (should_suggest default_config "s1" coding_transcript w_no) in
  should_suggest default_config "s1" coding_transcript w_no = (Returned false, w')
  /\ cooldown_file w' = cooldown_file w_no.
Proof.
  intros w'.
  assert (H : should_suggest default_config "s1" coding_transcript w_no
              = (Returned false, w')) by (vm_compute; reflexivity).
  split; [ exact H | ].
  exact (@should_suggest_negative_keeps_cooldown whole_seconds default_config "s1"
           coding_transcript w_no w' H).
Defined.


Lemma blank_transcript_has_no_features_witness :
  blank blank_transcript = true
  /\ a_has_code (analyze_session_context blank_transcript) = false
  /\ c_session_type (analyze_session_components blank_transcript)
     = "general_development".
Proof.
  assert (H : blank blank_transcript = true) by (vm_compute; reflexivity).
  split; [ exact H | ].
  destruct (blank_transcript_has_no_features blank_transcript H) as (Hctx & Hcomp & _).
  rewrite Hctx, Hcomp. split; reflexivity.
Defined.

Lemma prepare_context_above_2000_witness :
  2000 < 15000
  /\ 15000 < PyStr.len long_context
  /\ PyStr.len (_prepare_context_for_ai long_context 15000) = 15000 + 42.
Proof.
  assert (H : 2000 < 15000) by reflexivity.
  assert (Hlong : 15000 < PyStr.len long_context) by (vm_compute; reflexivity).
  split; [ exact H | ]. split; [ exact Hlong | ].
  destruct (prepare_context_above_2000 long_context 15000 H) as [_ Hcut].
  destruct (Hcut Hlong) as (_ & _ & _ & Hlen). exact Hlen.
Defined.

Lemma prepare_context_up_to_2000_witness :
  0 <= 2000 <= 2000
  /\ 2000 < PyStr.len medium_context
  /\ PyStr.len medium_context
     < PyStr.len (_prepare_context_for_ai medium_context 2000).
Proof.
  assert (H : 0 <= 2000 <= 2000) by (split; discriminate).
  assert (Hlong : 2000 < PyStr.len medium_context) by (vm_compute; reflexivity).
  split; [ exact H | ]. split; [ exact Hlong | ].
  exact (proj1 (prepare_context_up_to_2000 medium_context 2000 H Hlong)).
Defined.

Lemma empty_and_unreadable_transcripts_alike_witness :
  files w_empty_file "empty.txt" = Returned EmptyString
  /\ files w_empty_file "missing.txt" = Raised "No such file or directory"
  /\ fst (process_stop_hook default_config "s1" "empty.txt" w_empty_file)
     = Returned result_plain
  /\ fst (process_stop_hook default_config "s1" "missing.txt" w_empty_file)
     = Returned result_plain.
Proof.
  assert (H1 : files w_empty_file "empty.txt" = Returned EmptyString) by reflexivity.
  assert (H2 : files w_empty_file "missing.txt" = Raised "No such file or directory")
    by reflexivity.
  split; [ exact H1 | ]. split; [ exact H2 | ].
  destruct (@empty_and_unreadable_transcripts_alike whole_seconds default_config "s1"
              "empty.txt" "missing.txt" "No such file or directory" w_empty_file H1 H2)
    as (Hempty & Hbad & _).
  split; [ exact Hempty | exact Hbad ].
Defined.

Lemma main_missing_api_key_witness :
  transcript_path_of no_environ hook_argv <> EmptyString
  /\ startup_error w_no_key = None
  /\ get (gemini_api_key (loaded_config w_no_key)) EmptyString = EmptyString
  /\ stdout (snd (main no_environ hook_argv w_no_key))
     = [ result_error
           "Hook handler failed: GEMINI_API_KEY not found in config or environment" ].
Proof.
  assert (H1 : transcript_path_of no_environ hook_argv <> EmptyString)
    by (vm_compute; discriminate).
  assert (H2 : startup_error w_no_key = None) by reflexivity.
  assert (H3 : get (gemini_api_key (loaded_config w_no_key)) EmptyString = EmptyString)
    by reflexivity.
  do 3 (split; [ assumption | ]).
  rewrite (@main_missing_api_key whole_seconds no_environ hook_argv w_no_key H1 H2 H3).
  reflexivity.
Defined.

Lemma hook_api_key_precedence_witness :
  loaded_config w_shadowed_key
  = load_config_value (Some "env-key") (Some empty_key_file)
  /\ startup_error w_shadowed_key = None
  /\ fst (CCGuide_init w_shadowed_key)
     = Raised "GEMINI_API_KEY not found in config or environment".
Proof.
  assert (H1 : loaded_config w_shadowed_key
               = load_config_value (Some "env-key") (Some empty_key_file))
    by reflexivity.
  assert (H2 : startup_error w_shadowed_key = None) by reflexivity.
  do 2 (split; [ assumption | ]).
  destruct (@hook_api_key_precedence whole_seconds (Some "env-key")
              (Some empty_key_file) w_shadowed_key H1 H2) as (_ & Hraise & _).
  apply Hraise. reflexivity.
Defined.

Lemma cli_commands_need_config_file_witness :
  (CLI.file cli_fresh = CLI.Missing \/ exists e, CLI.file cli_fresh = CLI.Corrupt e)
  /\ In (CLI.toggle "config.json")
        [ CLI.enable "config.json"; CLI.disable "config.json";
          CLI.toggle "config.json";
          CLI.configure "config.json" None (Some 60) None ]
  /\ fst (CLI.toggle "config.json" cli_fresh) = CLI.Exit 1
  /\ CLI.file (snd (CLI.toggle "config.json" cli_fresh)) = CLI.file cli_fresh.
Proof.
  assert (H1 : CLI.file cli_fresh = CLI.Missing
               \/ exists e, CLI.file cli_fresh = CLI.Corrupt e) by (left; reflexivity).
  assert (H2 : In (CLI.toggle "config.json")
                  [ CLI.enable "config.json"; CLI.disable "config.json";
                    CLI.toggle "config.json";
                    CLI.configure "config.json" None (Some 60) None ])
    by (right; right; left; reflexivity).
  do 2 (split; [ assumption | ]).
  exact (cli_commands_need_config_file "config.json" cli_fresh None (Some 60) None
           H1 (CLI.toggle "config.json") H2).
Defined.

Lemma configure_validates_witness :
  CLI.file cli_ready = CLI.Holds default_config
  /\ exists config',
       CLI.file (snd (CLI.configure "config.json" (Some "  key-1 ") (Some (-5))
                        (Some 50) cli_ready))
       = CLI.Holds config'
       /\ enable_suggestions config' = enable_suggestions default_config.
Proof.
  assert (H : CLI.file cli_ready = CLI.Holds default_config) by reflexivity.
  split; [ exact H | ].
  destruct (configure_validates "config.json" cli_ready default_config
              (Some "  key-1 ") (Some (-5)) (Some 50) H)
    as ([(config' & Hfile & Henable & _) | (e & leftover & Hsave & _)] & _).
  - exists config'. split; [ exact Hfile | exact Henable ].
  - discriminate Hsave.
Defined.

Lemma toggle_flips_and_toggles_back_witness :
  CLI.file cli_ready = CLI.Holds default_config
  /\ CLI.save_error cli_ready = None
  /\ CLI.file (snd (CLI.toggle "config.json"
                      (snd (CLI.toggle "config.json" cli_ready))))
     = CLI.Holds default_config.
Proof.
  assert (H1 : CLI.file cli_ready = CLI.Holds default_config) by reflexivity.
  assert (H2 : CLI.save_error cli_ready = None) by reflexivity.
  do 2 (split; [ assumption | ]).
  destruct (toggle_flips_and_toggles_back "config.json" cli_ready default_config H1 H2)
    as (config1 & config2 & _ & Htwice & _ & _ & _ & _ & _ & Hsame).
  rewrite Htwice. f_equal. apply Hsame. discriminate.
Defined.

Lemma cli_switch_reaches_the_hook_witness :
  CLI.file cli_ready = CLI.Holds default_config
  /\ fst (CLI.disable "config.json" cli_ready) = CLI.Done tt
  /\ exists config',
       CLI.file (snd (CLI.disable "config.json" cli_ready)) = CLI.Holds config'
       /\ fst (should_suggest (load_config_value None (Some config')) "s1"
                 coding_transcript w_yes)
          = Returned false.
Proof.
  assert (H1 : CLI.file cli_ready = CLI.Holds default_config) by reflexivity.
  assert (H2 : fst (CLI.disable "config.json" cli_ready) = CLI.Done tt) by reflexivity.
  do 2 (split; [ assumption | ]).
  destruct (@cli_switch_reaches_the_hook whole_seconds "config.json" cli_ready
              default_config H1) as (Hdisable & _).
  destruct (Hdisable H2) as (config' & Hfile & Hclosed).
  exists config'. split; [ exact Hfile | ].
  now rewrite (Hclosed None "s1" coding_transcript w_yes).
Defined.
